(** * FoodSwing backend: a shallow embedding of [server.js]

    The development follows the Express routes of [server.js]: the three
    Mongoose collections are lists of documents, a handler is a function
    from the database, the per-request environment and the request to the
    new database and the response, and [try]/[catch] is a sum or option type
    whose failure side is the thrown error.

    The packages the server calls are interfaces here: [bcryptjs], the MAC
    and serialisation of [jsonwebtoken], and what Mongoose makes of a value
    that is not a string are type classes; the control flow of [jwt.sign]
    and [jwt.verify] (issued-at stamp, expiry span, signature check, expiry
    check), the argument check of [bcrypt.hash] and [bcrypt.compare], and the
    [required] and [unique] checks of the schemas are written out over them.

    A field of a request body is any JSON value, or [undefined] when the
    body lacks it. Requests are handled one at a time against a store that
    is reachable, a handler reads the clock once, and the [id] of a verified
    token is the rendering of an [ObjectId], as in every token the server
    signs. The client's strings are sequences of UTF-16 code units. *)

From Stdlib Require Import String Ascii List ZArith NArith Bool Lia.
From Stdlib Require Import Permutation Sorted Orders Mergesort.
From Stdlib Require Import DecimalString DecimalPos DecimalZ.
From Stdlib Require Import Floats.
Import ListNotations.

Local Open Scope string_scope.
Local Open Scope Z_scope.

(** ** JavaScript values and strings *)

(** A value that is [undefined] or a string. *)
Definition JsString := option string.

(** [!v] on such a value: [undefined] and the empty string are falsy. *)
Definition falsy (v : JsString) : bool :=
  match v with
  | None => true
  | Some s => String.eqb s ""
  end.

(** The string behind a truthy value; [None] exactly when [!v] holds. *)
Definition given (v : JsString) : option string :=
  match v with
  | None => None
  | Some s => if String.eqb s "" then None else Some s
  end.

(** [s.split(sep)] for a one-character separator. *)
Fixpoint split (sep : ascii) (s : string) : list string :=
  match s with
  | EmptyString => [EmptyString]
  | String c rest =>
      if Ascii.eqb c sep then EmptyString :: split sep rest
      else match split sep rest with
           | [] => [String c EmptyString]
           | w :: ws => String c w :: ws
           end
  end.

(** [a[i]] on an array: [undefined] out of range. *)
Definition index {A} (a : list A) (i : nat) : option A := nth_error a i.

(** A value of a parsed JSON body, or [undefined] for a field the body
    lacks. Numbers are IEEE 754 doubles. *)
#[local] Unset Elimination Schemes.
Inductive JsValue :=
| JUndefined
| JNull
| JBool (b : bool)
| JNumber (n : float)
| JString (s : string)
| JArray (items : list JsValue)
| JObject (members : list (string * JsValue)).
#[local] Set Elimination Schemes.

(** [ToBoolean]: [undefined], [null], [false], zero, [NaN] and the empty
    string are falsy, every other value is truthy. *)
Definition truthy (v : JsValue) : bool :=
  match v with
  | JUndefined | JNull => false
  | JBool b => b
  | JNumber n => negb (PrimFloat.eqb n 0%float) && PrimFloat.eqb n n
  | JString s => negb (String.eqb s "")
  | JArray _ | JObject _ => true
  end.

(** The text of a value that is a non-empty string. *)
Definition text (v : JsValue) : option string :=
  match v with
  | JString s => if String.eqb s "" then None else Some s
  | _ => None
  end.

(** A field that is [undefined], [null] or the empty string. *)
Definition blank (v : JsValue) : bool :=
  match v with
  | JUndefined | JNull => true
  | JString s => String.eqb s ""
  | _ => false
  end.

(** ** Documents and collections *)

(** The rendering of a Mongoose [ObjectId]. *)
Definition ObjectId := string.

Module User.
Record t := mk {
  _id : ObjectId;
  name : string;
  email : string;
  password : string;
  createdAt : Z
}.
End User.

Module Contact.
Record t := mk {
  _id : ObjectId;
  name : string;
  email : string;
  message : string;
  createdAt : Z
}.
End Contact.

Module MoodSelection.
Record t := mk {
  _id : ObjectId;
  userId : ObjectId;
  mood : string;
  timestamp : Z
}.
End MoodSelection.

(** The three collections of the [foodswing] database, in insertion order. *)
Record Db := mkDb {
  users : list User.t;
  contacts : list Contact.t;
  moodselections : list MoodSelection.t
}.

(** What a request draws from outside the database: [Date.now()] in
    milliseconds, the [_id] that [new Model(...)] generates, and the random
    salt that [bcrypt.hash] generates. *)
Record Env := mkEnv {
  now : Z;
  oid : ObjectId;
  salt : string
}.

(** ** Requests and responses *)

(** [req.body] after [express.json()], with the fields the handlers read. *)
Record Body := mkBody {
  b_name : JsValue;
  b_email : JsValue;
  b_password : JsValue;
  b_message : JsValue;
  b_mood : JsValue
}.

Record Request := mkRequest {
  authorization : JsString;   (* req.headers['authorization'] *)
  body : Body
}.

(** The payload of a verified token: what [jwt.sign] is given, with the
    [iat] and [exp] stamps it adds (seconds since the epoch). *)
Record Claims := mkClaims {
  id : ObjectId;
  email : string;
  name : string;
  iat : Z;
  exp : Z
}.

(** The [user] object of the signup and login responses. *)
Record UserView := mkUserView {
  v_id : ObjectId;
  v_name : string;
  v_email : string
}.

(** The JSON bodies the server sends, next to the [success] flag. *)
Inductive Payload :=
| Message (message : string)
| Session (message : string) (token : string) (user : UserView)
| Verified (user : Claims)
| History (history : list MoodSelection.t)
| Contacts (contacts : list Contact.t).

Record Response := mkResponse {
  status : Z;
  success : bool;
  payload : Payload
}.

(** [res.status(code).json({ success: false, message })]. *)
Definition failure (code : Z) (message : string) : Response :=
  mkResponse code false (Message message).

(** [res.json({ success: true, ... })], status 200. *)
Definition ok (p : Payload) : Response := mkResponse 200 true p.

(** ** The packages *)

(** [bcryptjs] on strings: [hash(s, rounds)] with the salt it draws made
    explicit, and [compare(s, hash)]. A hash is never the empty string. *)
Class Bcrypt := {
  bcrypt_hash : string -> Z -> string -> string;
  bcrypt_compare : string -> string -> bool;
  bcrypt_hash_nonempty : forall s rounds salt, bcrypt_hash s rounds salt <> ""
}.

(** [jsonwebtoken]: the MAC of a payload under a secret, and the compact
    serialisation of a payload with its signature, which parses back. *)
Class Jwt := {
  hmac : string -> Claims -> string;
  encode : Claims -> string -> string;
  decode : string -> option (Claims * string);
  decode_encode : forall c sig, decode (encode c sig) = Some (c, sig)
}.

(** A rejected [save()] or query: a schema validator or a cast failed on a
    path, or the unique index on a path already holds the value. *)
Inductive StoreError :=
| ValidationError (path : string)
| DuplicateKey (path : string).

(** What Mongoose makes of a value that is not a string: its cast to a
    [String] path (the string, or [None] when the cast fails), and the
    outcome of [User.findOne({ email: v })] (the query is rejected, or it
    finds a stored user, or none). *)
Class Mongoose := {
  castString : JsValue -> option string;
  findOne_cast : JsValue -> list User.t -> StoreError + option User.t;
  findOne_cast_stored :
    forall v l u, findOne_cast v l = inr (Some u) -> In u l
}.

Inductive JwtError := JsonWebTokenError | TokenExpiredError.

(** The clock of [jsonwebtoken]: [Math.floor(Date.now() / 1000)]. *)
Definition clockTimestamp (ms : Z) : Z := ms / 1000.

(** The span of [expiresIn: '7d'] in seconds. *)
Definition expiresIn_7d : Z := 7 * 24 * 60 * 60.

Section Tokens.
Context {J : Jwt}.

(** [jwt.sign({ id, email, name }, secret, { expiresIn: '7d' })] at time
    [ms]. *)
Definition jwt_sign (id email name : string) (secret : string) (ms : Z)
  : string :=
  let iat := clockTimestamp ms in
  let c := mkClaims id email name iat (iat + expiresIn_7d) in
  encode c (hmac secret c).

(** [jwt.verify(token, secret, callback)] at time [ms]: the callback gets the
    error or the payload. *)
Definition jwt_verify (token secret : string) (ms : Z) : JwtError + Claims :=
  match decode token with
  | None => inl JsonWebTokenError
  | Some (c, sig) =>
      if String.eqb sig (hmac secret c) then
        if exp c <=? clockTimestamp ms then inl TokenExpiredError else inr c
      else inl JsonWebTokenError
  end.

End Tokens.

Section Hashing.
Context {B : Bcrypt}.

(** [bcrypt.hash(s, rounds)] on any value: the call is rejected with
    [Illegal arguments] ([None]) unless [s] is a string. *)
Definition bcrypt_hash_of (s : JsValue) (rounds : Z) (salt : string)
  : option string :=
  match s with
  | JString s => Some (bcrypt_hash s rounds salt)
  | _ => None
  end.

(** [bcrypt.compare(s, hash)] on any value: the call is rejected with
    [Illegal arguments] ([None]) unless [s] is a string. *)
Definition bcrypt_compare_of (s : JsValue) (hash : string) : option bool :=
  match s with
  | JString s => Some (bcrypt_compare s hash)
  | _ => None
  end.

End Hashing.

(** ** Mongoose models *)

(** [required: true] on a [String] path. *)
Definition required (s : string) : bool := negb (String.eqb s "").

(** [User.findOne({ email })] for a string: the first user with exactly
    that email. *)
Definition User_findOne (db : Db) (email : string) : option User.t :=
  find (fun u => String.eqb (User.email u) email) (users db).

(** [user.save()] under [userSchema]: [name], [email] and [password] are
    required and [email] is unique. *)
Definition User_save (db : Db) (user : User.t) : StoreError + Db :=
  if negb (required (User.name user)) then inl (ValidationError "name")
  else if negb (required (User.email user)) then inl (ValidationError "email")
  else if negb (required (User.password user))
  then inl (ValidationError "password")
  else if existsb (fun u => String.eqb (User.email u) (User.email user))
            (users db)
  then inl (DuplicateKey "email")
  else inr (mkDb (users db ++ [user]) (contacts db) (moodselections db)).

(** [contact.save()] under [contactSchema]: all three fields are required. *)
Definition Contact_save (db : Db) (contact : Contact.t) : StoreError + Db :=
  if negb (required (Contact.name contact)) then inl (ValidationError "name")
  else if negb (required (Contact.email contact))
  then inl (ValidationError "email")
  else if negb (required (Contact.message contact))
  then inl (ValidationError "message")
  else inr (mkDb (users db) (contacts db ++ [contact]) (moodselections db)).

Section Models.
Context {M : Mongoose}.

(** A required [String] path set to [v], as [save()] finds it: the string,
    or the validation error of the path when [v] is [undefined] or [null],
    cannot be cast to a string, or is cast to the empty string. *)
Definition String_path (path : string) (v : JsValue) : StoreError + string :=
  let cast :=
    match v with
    | JUndefined | JNull => None
    | JString s => Some s
    | _ => castString v
    end in
  match cast with
  | Some s => if required s then inr s else inl (ValidationError path)
  | None => inl (ValidationError path)
  end.

(** [User.findOne({ email })] for any value. *)
Definition User_findOne_by (db : Db) (email : JsValue)
  : StoreError + option User.t :=
  match email with
  | JString email => inr (User_findOne db email)
  | _ => findOne_cast email (users db)
  end.

(** [new User({ name, email, password })] with a hash for password: the
    document, or the error its [save()] will be rejected with for a path
    that has no valid string. *)
Definition User_new (env : Env) (name email : JsValue) (password : string)
  : StoreError + User.t :=
  match String_path "name" name, String_path "email" email with
  | inr name, inr email =>
      inr (User.mk (oid env) name email password (now env))
  | inl error, _ => inl error
  | _, inl error => inl error
  end.

(** [new Contact({ name, email, message })], likewise. *)
Definition Contact_new (env : Env) (name email message : JsValue)
  : StoreError + Contact.t :=
  match String_path "name" name, String_path "email" email,
        String_path "message" message with
  | inr name, inr email, inr message =>
      inr (Contact.mk (oid env) name email message (now env))
  | inl error, _, _ => inl error
  | _, inl error, _ => inl error
  | _, _, inl error => inl error
  end.

(** [new MoodSelection({ userId, mood })] followed by [save()] under
    [moodSelectionSchema]: [mood] is required, so [undefined], [null], the
    empty string and a value without a string cast are rejected;
    [timestamp] defaults to [Date.now]. *)
Definition MoodSelection_save (db : Db) (env : Env) (userId : ObjectId)
  (mood : JsValue) : StoreError + Db :=
  match String_path "mood" mood with
  | inl error => inl error
  | inr mood =>
      inr (mkDb (users db) (contacts db)
             (moodselections db
                ++ [MoodSelection.mk (oid env) userId mood (now env)]))
  end.

End Models.

(** Of two dates, one is no later than the other. *)
Lemma later_first_total (x y : Z) : (y <=? x) = true \/ (x <=? y) = true.
Proof. rewrite !Z.leb_le. lia. Qed.

(** The order of [sort({ timestamp: -1 })]: later first. *)
Module MoodNewestFirst <: TotalLeBool.
Definition t := MoodSelection.t.
Definition leb (a b : t) : bool :=
  MoodSelection.timestamp b <=? MoodSelection.timestamp a.
Definition leb_total (a b : t) : leb a b = true \/ leb b a = true :=
  later_first_total (MoodSelection.timestamp a) (MoodSelection.timestamp b).
End MoodNewestFirst.

Module MoodSort := Sort MoodNewestFirst.

(** The order of [sort({ createdAt: -1 })]: later first. *)
Module ContactNewestFirst <: TotalLeBool.
Definition t := Contact.t.
Definition leb (a b : t) : bool := Contact.createdAt b <=? Contact.createdAt a.
Definition leb_total (a b : t) : leb a b = true \/ leb b a = true :=
  later_first_total (Contact.createdAt a) (Contact.createdAt b).
End ContactNewestFirst.

Module ContactSort := Sort ContactNewestFirst.

(** [MoodSelection.find({ userId }).sort({ timestamp: -1 }).limit(50)]. *)
Definition MoodSelection_history (db : Db) (userId : ObjectId)
  : list MoodSelection.t :=
  firstn 50
    (MoodSort.sort
       (filter (fun m => String.eqb (MoodSelection.userId m) userId)
          (moodselections db))).

(** [Contact.find().sort({ createdAt: -1 })]. *)
Definition Contact_all (db : Db) : list Contact.t :=
  ContactSort.sort (contacts db).

(** ** The server *)

(** What a middleware does with a request: answer it, or call [next()] with
    [req.user] set. *)
Inductive Outcome :=
| Respond (r : Response)
| Next (user : Claims).

(** A run of [authenticateToken]: the tokens it handed to [jwt.verify], in
    call order, and how it ended. *)
Record Run := mkRun {
  verified : list string;
  outcome : Outcome
}.

(** [authHeader && authHeader.split(' ')[1]]: a falsy header itself, else
    the second of the pieces between single spaces. *)
Definition header_token (authHeader : JsString) : JsString :=
  match given authHeader with
  | None => authHeader
  | Some header => index (split " " header) 1
  end.

Section Server.
Context {B : Bcrypt} {M : Mongoose} {J : Jwt}.

(** [process.env.JWT_SECRET]. *)
Variable process_env_JWT_SECRET : JsString.

(** [process.env.JWT_SECRET || 'your-secret-key-change-in-production']. *)
Definition JWT_SECRET : string :=
  match given process_env_JWT_SECRET with
  | Some secret => secret
  | None => "your-secret-key-change-in-production"
  end.

(** [authenticateToken]. *)
Definition authenticateToken (env : Env) (req : Request) : Run :=
  let authHeader := authorization req in
  let token := header_token authHeader in
  match given token with
  | None => mkRun [] (Respond (failure 401 "Access token required"))
  | Some token =>
      mkRun [token]
        match jwt_verify token JWT_SECRET (now env) with
        | inl err => Respond (failure 403 "Invalid or expired token")
        | inr user => Next user
        end
  end.

(** A route behind [authenticateToken]. *)
Definition protected (handler : Claims -> Db -> Env -> Request -> Db * Response)
  (db : Db) (env : Env) (req : Request) : Db * Response :=
  match outcome (authenticateToken env req) with
  | Respond r => (db, r)
  | Next user => handler user db env req
  end.

(** [POST /api/auth/signup]. *)
Definition signup (db : Db) (env : Env) (req : Request) : Db * Response :=
  let name := b_name (body req) in
  let email := b_email (body req) in
  let password := b_password (body req) in
  let caught := (db, failure 500 "Server error. Please try again.") in
  if negb (truthy name) || negb (truthy email) || negb (truthy password)
  then (db, failure 400 "Please provide all required fields")
  else
    match User_findOne_by db email with
    | inl error => caught
    | inr (Some existingUser) => (db, failure 400 "Email already registered")
    | inr None =>
        match bcrypt_hash_of password 10 (salt env) with
        | None => caught
        | Some hashedPassword =>
            match User_new env name email hashedPassword with
            | inl error => caught
            | inr user =>
                match User_save db user with
                | inl error => caught
                | inr db' =>
                    let token :=
                      jwt_sign (User._id user) (User.email user)
                        (User.name user) JWT_SECRET (now env) in
                    (db',
                     mkResponse 201 true
                       (Session "Account created successfully! 🎉" token
                          (mkUserView (User._id user) (User.name user)
                             (User.email user))))
                end
            end
        end
    end.

(** [POST /api/auth/login]. *)
Definition login (db : Db) (env : Env) (req : Request) : Db * Response :=
  let email := b_email (body req) in
  let password := b_password (body req) in
  let caught := (db, failure 500 "Server error. Please try again.") in
  if negb (truthy email) || negb (truthy password)
  then (db, failure 400 "Please provide email and password")
  else
    match User_findOne_by db email with
    | inl error => caught
    | inr None => (db, failure 400 "Invalid email or password")
    | inr (Some user) =>
        match bcrypt_compare_of password (User.password user) with
        | None => caught
        | Some isPasswordValid =>
            if negb isPasswordValid
            then (db, failure 400 "Invalid email or password")
            else
              let token :=
                jwt_sign (User._id user) (User.email user) (User.name user)
                  JWT_SECRET (now env) in
              (db,
               ok (Session "Welcome back! 🎉" token
                     (mkUserView (User._id user) (User.name user)
                        (User.email user))))
        end
    end.

(** [GET /api/auth/verify]. *)
Definition auth_verify : Db -> Env -> Request -> Db * Response :=
  protected (fun user db env req => (db, ok (Verified user))).

(** [POST /api/mood/select]. *)
Definition mood_select : Db -> Env -> Request -> Db * Response :=
  protected (fun user db env req =>
    let mood := b_mood (body req) in
    match MoodSelection_save db env (id user) mood with
    | inr db' => (db', ok (Message "Mood tracked successfully"))
    | inl error => (db, failure 500 "Failed to track mood")
    end).

(** [GET /api/mood/history]. *)
Definition mood_history : Db -> Env -> Request -> Db * Response :=
  protected (fun user db env req =>
    let moodHistory := MoodSelection_history db (id user) in
    (db, ok (History moodHistory))).

(** [POST /api/contact]. *)
Definition contact (db : Db) (env : Env) (req : Request) : Db * Response :=
  let name := b_name (body req) in
  let email := b_email (body req) in
  let message := b_message (body req) in
  let caught := (db, failure 500 "Failed to send message. Please try again.") in
  if negb (truthy name) || negb (truthy email) || negb (truthy message)
  then (db, failure 400 "Please provide all fields")
  else
    match Contact_new env name email message with
    | inl error => caught
    | inr contact =>
        match Contact_save db contact with
        | inl error => caught
        | inr db' =>
            (db',
             ok (Message
                   "Thank you for your message! We'll get back to you soon. 📧"))
        end
    end.

(** [GET /api/admin/contacts]. *)
Definition admin_contacts : Db -> Env -> Request -> Db * Response :=
  protected (fun user db env req =>
    let contacts := Contact_all db in
    (db, ok (Contacts contacts))).

End Server.

(** ** The client's strings and the email pattern *)

(** A string of the client, as its UTF-16 code units. *)
Definition CodeUnit := N.
Definition JsText := list CodeUnit.

(** The code units of a text written in ASCII characters. *)
Definition units (s : string) : JsText :=
  map N_of_ascii (list_ascii_of_string s).

(** A regular expression without flags over code units, matched by
    derivatives. *)
Inductive Regex :=
| Never
| Empty
| Class (p : CodeUnit -> bool)
| Seq (r1 r2 : Regex)
| Alt (r1 r2 : Regex)
| Star (r : Regex).

(** [r+]. *)
Definition Plus (r : Regex) : Regex := Seq r (Star r).

Fixpoint nullable (r : Regex) : bool :=
  match r with
  | Never => false
  | Empty => true
  | Class _ => false
  | Seq r1 r2 => nullable r1 && nullable r2
  | Alt r1 r2 => nullable r1 || nullable r2
  | Star _ => true
  end.

Fixpoint deriv (c : CodeUnit) (r : Regex) : Regex :=
  match r with
  | Never => Never
  | Empty => Never
  | Class p => if p c then Empty else Never
  | Seq r1 r2 =>
      if nullable r1 then Alt (Seq (deriv c r1) r2) (deriv c r2)
      else Seq (deriv c r1) r2
  | Alt r1 r2 => Alt (deriv c r1) (deriv c r2)
  | Star r1 => Seq (deriv c r1) (Star r1)
  end.

(** [/^r$/.test(s)]. *)
Fixpoint test (r : Regex) (s : JsText) : bool :=
  match s with
  | [] => nullable r
  | c :: rest => test (deriv c r) rest
  end.

(** [\s], and what [trim()] strips: the white space of ECMAScript (tab,
    vertical tab, form feed, space, no-break space, U+1680, U+2000 to
    U+200A, U+202F, U+205F, U+3000, U+FEFF) and its line terminators (line
    feed, carriage return, U+2028, U+2029). *)
Definition is_space (c : CodeUnit) : bool :=
  ((9 <=? c) && (c <=? 13) || (c =? 32) || (c =? 160) || (c =? 5760)
   || (8192 <=? c) && (c <=? 8202) || (c =? 8232) || (c =? 8233)
   || (c =? 8239) || (c =? 8287) || (c =? 12288) || (c =? 65279))%N.

(** [[^\s@]]. *)
Definition not_space_at (c : CodeUnit) : bool :=
  negb (is_space c || (c =? 64)%N).

(** [/^[^\s@]+@[^\s@]+\.[^\s@]+$/]. *)
Definition emailRegex : Regex :=
  Seq (Plus (Class not_space_at))
    (Seq (Class (N.eqb 64))
       (Seq (Plus (Class not_space_at))
          (Seq (Class (N.eqb 46)) (Plus (Class not_space_at))))).

Fixpoint trimStart (s : JsText) : JsText :=
  match s with
  | [] => []
  | c :: rest => if is_space c then trimStart rest else s
  end.

Fixpoint trimEnd (s : JsText) : JsText :=
  match s with
  | [] => []
  | c :: rest =>
      match trimEnd rest with
      | [] => if is_space c then [] else [c]
      | kept => c :: kept
      end
  end.

(** [s.trim()]. *)
Definition trim (s : JsText) : JsText := trimEnd (trimStart s).

(** [!s] on a string of the client. *)
Definition empty (s : JsText) : bool :=
  match s with
  | [] => true
  | _ => false
  end.

(** The object a form handler passes to [JSON.stringify]. *)
Record Posted := mkPosted {
  p_name : option JsText;
  p_email : option JsText;
  p_password : option JsText;
  p_message : option JsText
}.

(** What a form handler of the client does: show a toast and stop, or post
    an object to an endpoint of the API. *)
Inductive ClientAction :=
| Toast (message : string)
| Post (endpoint : string) (posted : Posted).

(** [submitContact] up to the call of [apiRequest], on the values of the
    three inputs. *)
Definition submitContact (contactName contactEmail contactMessage : JsText)
  : ClientAction :=
  let name := trim contactName in
  let email := trim contactEmail in
  let message := trim contactMessage in
  if empty name || empty email || empty message
  then Toast "Please fill in all fields! 📝"
  else if negb (test emailRegex email)
  then Toast "Please enter a valid email! 📧"
  else Post "/contact" (mkPosted (Some name) (Some email) None (Some message)).

(** [handleAuth] up to the call of [apiRequest], on the values of the three
    inputs and the active tab. *)
Definition handleAuth (authEmail authPassword authName : JsText)
  (isSignup : bool) : ClientAction :=
  let email := trim authEmail in
  let password := trim authPassword in
  let name := trim authName in
  if empty email || empty password
  then Toast "Please fill in all fields! 📝"
  else if isSignup && empty name
  then Toast "Please enter your name! 👤"
  else if negb (test emailRegex email)
  then Toast "Please enter a valid email! 📧"
  else if (length password <? 6)%nat
  then Toast "Password must be at least 6 characters! 🔒"
  else
    let endpoint := if isSignup then "/auth/signup" else "/auth/login" in
    let posted :=
      if isSignup
      then mkPosted (Some name) (Some email) (Some password) None
      else mkPosted None (Some email) (Some password) None in
    Post endpoint posted.

(** The body the server parses from a posted object, where [wire] gives the
    server's string for a string of the client. *)
Definition parsed (wire : JsText -> string) (posted : Posted) : Body :=
  let field (v : option JsText) :=
    match v with
    | Some s => JString (wire s)
    | None => JUndefined
    end in
  mkBody (field (p_name posted)) (field (p_email posted))
    (field (p_password posted)) (field (p_message posted)) JUndefined.

(** The [Authorization] header [apiRequest] sends for the stored
    [authToken]: none when the token is [null] or empty. *)
Definition apiRequest_authorization (authToken : JsString) : JsString :=
  match given authToken with
  | Some token => Some ("Bearer " ++ token)
  | None => None
  end.

(** The request [apiRequest] makes of a body. *)
Definition apiRequest (authToken : JsString) (posted : Body) : Request :=
  mkRequest (apiRequest_authorization authToken) posted.

(** ** The client's shuffle *)

(** A DOM node, by identity. *)
Definition Node := nat.

(** The list [l] without [node]. *)
Definition detach (node : Node) (l : list Node) : list Node :=
  filter (fun x => negb (Nat.eqb x node)) l.

(** [node] put in front of the first [child] of [l]; [None] when [child] is
    not in [l]. *)
Fixpoint attach (node child : Node) (l : list Node) : option (list Node) :=
  match l with
  | [] => None
  | x :: rest =>
      if Nat.eqb x child then Some (node :: x :: rest)
      else match attach node child rest with
           | Some rest' => Some (x :: rest')
           | None => None
           end
  end.

(** [parent.insertBefore(node, child)] on the child list of [parent]: a
    [child] that is not in the list is an error, a node put before itself
    stays where it is, and a node that is in the list is moved. *)
Definition insertBefore (children : list Node) (node child : Node)
  : option (list Node) :=
  if negb (existsb (Nat.eqb child) children) then None
  else if Nat.eqb node child then Some children
  else attach node child (detach node children).

(** The loop of [shuffleFoods] from index [i] down to 1, over the snapshot
    [cards]; [random i] is the value of
    [Math.floor(Math.random() * (i + 1))] at index [i]. *)
Fixpoint shuffle_from (cards : list Node) (random : nat -> nat) (i : nat)
  (children : list Node) : option (list Node) :=
  match i with
  | O => Some children
  | S i' =>
      let j := random i in
      match nth_error cards j, nth_error cards i with
      | Some card_j, Some card_i =>
          match insertBefore children card_j card_i with
          | Some children' => shuffle_from cards random i' children'
          | None => None
          end
      | _, _ => None
      end
  end.

(** [shuffleFoods] on the children of [foodGrid]: the new child list, or
    [None] when a call throws. *)
Definition shuffleFoods (random : nat -> nat) (children : list Node)
  : option (list Node) :=
  let cards := children in
  shuffle_from cards random (length cards - 1) children.

(** ** Views used in the statements *)


(** The [{ id, name, email }] object built from a user document. *)
Definition user_view (u : User.t) : UserView :=
  mkUserView (User._id u) (User.name u) (User.email u).

(** The result of a signup that stores a user. *)
Definition created (B : Bcrypt) (J : Jwt) (secret : JsString) (db : Db)
  (env : Env) (n e p : string) : Db * Response :=
  (mkDb
     (users db
        ++ [User.mk (oid env) n e (bcrypt_hash p 10 (salt env)) (now env)])
     (contacts db) (moodselections db),
   mkResponse 201 true
     (Session "Account created successfully! 🎉"
        (jwt_sign (oid env) e n (JWT_SECRET secret) (now env))
        (mkUserView (oid env) n e))).

(** ** The header format of the specification *)

(** No character of [s] is a space. *)
Fixpoint space_free (s : string) : bool :=
  match s with
  | EmptyString => true
  | String c rest => negb (Ascii.eqb c " ") && space_free rest
  end.

(** The [Bearer <token>] format in the specification's words: the word
    [Bearer], one space, and a non-empty token without spaces. *)
Definition bearer_format (authHeader : JsString) : bool :=
  match authHeader with
  | None => false
  | Some header =>
      let token := substring 7 (String.length header - 7) header in
      prefix "Bearer " header && negb (String.eqb token "")
      && space_free token
  end.

(** ** The analytics route and the application *)

(** A document of [$group: { _id: '$mood', count: { $sum: 1 } }]. *)
Record MoodStat := mkMoodStat {
  stat_id : string;
  count : Z
}.

(** One more selection with [mood] in the groups built so far. *)
Fixpoint tally (mood : string) (stats : list MoodStat) : list MoodStat :=
  match stats with
  | [] => [mkMoodStat mood 1]
  | s :: rest =>
      if String.eqb (stat_id s) mood
      then mkMoodStat (stat_id s) (count s + 1) :: rest
      else s :: tally mood rest
  end.

(** [MoodSelection.aggregate([{ $group: ... }])]: one group per mood, in the
    order the moods first occur. *)
Definition MoodSelection_aggregate (db : Db) : list MoodStat :=
  fold_left (fun stats m => tally (MoodSelection.mood m) stats)
    (moodselections db) [].

(** The [analytics] object of the analytics response. *)
Record Analytics := mkAnalytics {
  totalUsers : Z;
  totalMoodSelections : Z;
  totalContacts : Z;
  moodStats : list MoodStat
}.

(** [Model.countDocuments()]. *)
Definition countDocuments {A} (collection : list A) : Z :=
  Z.of_nat (length collection).

(** What a route sends: one of the bodies of [Response], or status 200 with
    [{ success: true, analytics }]. *)
Inductive Reply :=
| Json (r : Response)
| AnalyticsJson (analytics : Analytics).

(** The routes of the API that read or write the database. *)
Inductive Route :=
| POST_auth_signup
| POST_auth_login
| GET_auth_verify
| POST_mood_select
| GET_mood_history
| POST_contact
| GET_admin_contacts
| GET_admin_analytics.

(** The routes registered with [authenticateToken]. *)
Definition behind_token (route : Route) : bool :=
  match route with
  | GET_auth_verify | POST_mood_select | GET_mood_history
  | GET_admin_contacts | GET_admin_analytics => true
  | POST_auth_signup | POST_auth_login | POST_contact => false
  end.

Section Application.
Context {B : Bcrypt} {M : Mongoose} {J : Jwt}.
Variable process_env_JWT_SECRET : JsString.

(** [GET /api/admin/analytics]. *)
Definition admin_analytics (db : Db) (env : Env) (req : Request)
  : Db * Reply :=
  match outcome (authenticateToken process_env_JWT_SECRET env req) with
  | Respond r => (db, Json r)
  | Next user =>
      let totalUsers := countDocuments (users db) in
      let totalMoodSelections := countDocuments (moodselections db) in
      let totalContacts := countDocuments (contacts db) in
      let moodStats := MoodSelection_aggregate db in
      (db,
       AnalyticsJson
         (mkAnalytics totalUsers totalMoodSelections totalContacts moodStats))
  end.

(** The handler the application runs for a route. *)
Definition serve (route : Route) (db : Db) (env : Env) (req : Request)
  : Db * Reply :=
  let json (result : Db * Response) := (fst result, Json (snd result)) in
  match route with
  | POST_auth_signup => json (signup process_env_JWT_SECRET db env req)
  | POST_auth_login => json (login process_env_JWT_SECRET db env req)
  | GET_auth_verify => json (auth_verify process_env_JWT_SECRET db env req)
  | POST_mood_select => json (mood_select process_env_JWT_SECRET db env req)
  | GET_mood_history => json (mood_history process_env_JWT_SECRET db env req)
  | POST_contact => json (contact db env req)
  | GET_admin_contacts =>
      json (admin_contacts process_env_JWT_SECRET db env req)
  | GET_admin_analytics => admin_analytics db env req
  end.

(** The database after a sequence of requests, served one after another. *)
Fixpoint run (db : Db) (requests : list (Route * Env * Request)) : Db :=
  match requests with
  | [] => db
  | (route, env, req) :: rest => run (fst (serve route db env req)) rest
  end.

End Application.

(** ** A reference instance of the packages

    A codec, two keyed functions and a cast that meet the laws of [Jwt],
    [Bcrypt] and [Mongoose]. They make the interfaces inhabited and let the
    examples run; they are not the algorithms of the packages. *)

Module Reference.

(** [n] ones in front of [rest]. *)
Fixpoint ones (n : nat) (rest : string) : string :=
  match n with
  | O => rest
  | S n' => String "1" (ones n' rest)
  end.

(** A string framed by its length in unary and a zero. *)
Definition frame (s rest : string) : string :=
  ones (String.length s) (String "0" (s ++ rest)).

Fixpoint take (n : nat) (s : string) : option (string * string) :=
  match n with
  | O => Some (EmptyString, s)
  | S n' =>
      match s with
      | EmptyString => None
      | String c rest =>
          match take n' rest with
          | Some (w, rest') => Some (String c w, rest')
          | None => None
          end
      end
  end.

Fixpoint unframe_from (k : nat) (s : string) : option (string * string) :=
  match s with
  | EmptyString => None
  | String c rest =>
      if Ascii.eqb c "1" then unframe_from (S k) rest
      else if Ascii.eqb c "0" then take k rest
      else None
  end.

Definition unframe (s : string) : option (string * string) :=
  unframe_from 0 s.

Definition string_of_Z (z : Z) : string :=
  NilZero.string_of_int (Z.to_int z).

Definition Z_of_string (s : string) : option Z :=
  option_map Z.of_int (NilZero.int_of_string s).

Definition fields (c : Claims) (rest : string) : string :=
  frame (id c)
    (frame (email c)
       (frame (name c)
          (frame (string_of_Z (iat c)) (frame (string_of_Z (exp c)) rest)))).

Definition encode (c : Claims) (sig : string) : string :=
  fields c (frame sig "").

Definition decode (token : string) : option (Claims * string) :=
  match unframe token with
  | Some (id, s1) =>
  match unframe s1 with
  | Some (email, s2) =>
  match unframe s2 with
  | Some (name, s3) =>
  match unframe s3 with
  | Some (iat, s4) =>
  match unframe s4 with
  | Some (exp, s5) =>
  match unframe s5 with
  | Some (sig, EmptyString) =>
      match Z_of_string iat, Z_of_string exp with
      | Some iat, Some exp => Some (mkClaims id email name iat exp, sig)
      | _, _ => None
      end
  | _ => None
  end
  | None => None
  end
  | None => None
  end
  | None => None
  end
  | None => None
  end
  | None => None
  end.

(** The sum of the character codes. *)
Fixpoint checksum (s : string) : Z :=
  match s with
  | EmptyString => 0
  | String c rest => Z.of_nat (nat_of_ascii c) + checksum rest
  end.

Definition hmac (secret : string) (c : Claims) : string :=
  string_of_Z (checksum (frame secret (fields c ""))).

Definition bcrypt_hash (s : string) (rounds : Z) (salt : string) : string :=
  String "$" (frame salt (string_of_Z (rounds * checksum (salt ++ s)))).

Definition bcrypt_compare (s hash : string) : bool :=
  match hash with
  | String "$" framed =>
      match unframe framed with
      | Some (salt, digest) => String.eqb hash (bcrypt_hash s 10 salt)
      | None => false
      end
  | _ => false
  end.

(** The integer a number is, when it is one. *)
Definition integer_of (n : float) : option Z :=
  match Prim2SF n with
  | S754_zero _ => Some 0
  | S754_finite negative m e =>
      let magnitude :=
        if 0 <=? e then Some (Zpos m * 2 ^ e)
        else if Zpos m mod 2 ^ (- e) =? 0 then Some (Zpos m / 2 ^ (- e))
        else None in
      match magnitude with
      | Some z => Some (if negative then - z else z)
      | None => None
      end
  | _ => None
  end.

(** Booleans and whole numbers are cast to their text; other numbers,
    arrays and objects are not cast. *)
Definition castString (v : JsValue) : option string :=
  match v with
  | JBool true => Some "true"
  | JBool false => Some "false"
  | JNumber n =>
      match integer_of n with
      | Some z => Some (string_of_Z z)
      | None => None
      end
  | JString s => Some s
  | _ => None
  end.

(** The query value is cast like a field, and a failed cast rejects the
    query. *)
Definition findOne_cast (v : JsValue) (l : list User.t)
  : StoreError + option User.t :=
  match castString v with
  | Some s => inr (find (fun u => String.eqb (User.email u) s) l)
  | None => inl (ValidationError "email")
  end.

(** The low byte of each code unit. *)
Definition wire (s : JsText) : string :=
  string_of_list_ascii (map ascii_of_N s).

End Reference.

(** ** The reference instance meets the laws *)

Module ReferenceLaws.
Import Reference.

Lemma take_app (s rest : string) :
  take (String.length s) (s ++ rest) = Some (s, rest).
Proof.
  induction s as [|c s IH]; simpl.
  - reflexivity.
  - rewrite IH. reflexivity.
Qed.

Lemma unframe_from_ones (n k : nat) (rest : string) :
  unframe_from k (ones n rest) = unframe_from (k + n) rest.
Proof.
  revert k. induction n as [|n IH]; intros k; simpl.
  - now rewrite Nat.add_0_r.
  - rewrite IH. f_equal. lia.
Qed.

Lemma unframe_frame (s rest : string) : unframe (frame s rest) = Some (s, rest).
Proof.
  unfold unframe, frame. rewrite unframe_from_ones. simpl.
  apply take_app.
Qed.

Lemma Z_of_string_of_Z (z : Z) : Z_of_string (string_of_Z z) = Some z.
Proof.
  unfold Z_of_string, string_of_Z.
  rewrite NilZero.isi.
  - simpl. now rewrite DecimalZ.of_to.
  - destruct z as [|p|p]; simpl; try discriminate.
    intros E. injection E as E. now apply DecimalPos.Unsigned.to_uint_nonnil in E.
  - destruct z as [|p|p]; simpl; try discriminate.
    intros E. injection E as E. now apply DecimalPos.Unsigned.to_uint_nonnil in E.
Qed.

Lemma decode_encode (c : Claims) (sig : string) :
  decode (encode c sig) = Some (c, sig).
Proof.
  destruct c as [i e n t x].
  unfold decode, encode, fields. simpl.
  rewrite !unframe_frame, !Z_of_string_of_Z. reflexivity.
Qed.

Lemma bcrypt_hash_nonempty (s : string) (rounds : Z) (salt : string) :
  bcrypt_hash s rounds salt <> "".
Proof. unfold bcrypt_hash. discriminate. Qed.

Lemma findOne_cast_stored (v : JsValue) (l : list User.t) (u : User.t) :
  findOne_cast v l = inr (Some u) -> In u l.
Proof.
  unfold findOne_cast. destruct (castString v); [|discriminate].
  intros H. injection H as H. now apply find_some in H.
Qed.

Lemma wire_empty (s : JsText) : wire s = "" -> s = [].
Proof. destruct s; [reflexivity|discriminate]. Qed.

End ReferenceLaws.

Definition reference_bcrypt : Bcrypt :=
  {| bcrypt_hash := Reference.bcrypt_hash;
     bcrypt_compare := Reference.bcrypt_compare;
     bcrypt_hash_nonempty := ReferenceLaws.bcrypt_hash_nonempty |}.

Definition reference_jwt : Jwt :=
  {| hmac := Reference.hmac;
     encode := Reference.encode;
     decode := Reference.decode;
     decode_encode := ReferenceLaws.decode_encode |}.

Definition reference_mongoose : Mongoose :=
  {| castString := Reference.castString;
     findOne_cast := Reference.findOne_cast;
     findOne_cast_stored := ReferenceLaws.findOne_cast_stored |}.

(** ** Sample data *)

Definition ann : User.t :=
  User.mk "u1" "Ann" "ann@x.com" (Reference.bcrypt_hash "secret1" 10 "s") 1000.

Definition db_ann : Db := mkDb [ann] [] [].

Definition env0 : Env := mkEnv 5000 "u2" "t".

Definition no_body : Body :=
  mkBody JUndefined JUndefined JUndefined JUndefined JUndefined.

(** Ann's session token, issued at [now env0] under the default secret, and
    its claims. *)
Definition ann_token : string :=
  @jwt_sign reference_jwt "u1" "ann@x.com" "Ann" (JWT_SECRET None) 5000.

Definition ann_claims : Claims := mkClaims "u1" "ann@x.com" "Ann" 5 604805.

(** A request with Ann's token in the [Bearer] format and a given body. *)
Definition as_ann (b : Body) : Request :=
  mkRequest (Some ("Bearer " ++ ann_token)) b.

(** Signup and login bodies. *)
Definition credentials (n e p : JsValue) : Request :=
  mkRequest None (mkBody n e p JUndefined JUndefined).

(** A contact-form body. *)
Definition submission (n e m : JsValue) : Request :=
  mkRequest None (mkBody n e JUndefined m JUndefined).

(** A database with two more users' selections and some contact messages. *)
Definition db_log : Db :=
  mkDb [ann]
    [Contact.mk "c1" "Bob" "bob@x.com" "hello" 100;
     Contact.mk "c2" "Cy" "cy@x.com" "hi" 300;
     Contact.mk "c3" "Di" "di@x.com" "hey" 200]
    [MoodSelection.mk "m1" "u1" "happy" 10;
     MoodSelection.mk "m2" "u9" "sad" 20;
     MoodSelection.mk "m3" "u1" "angry" 30].

(** Ann's request to record the mood [happy]. *)
Definition ann_happy : Request :=
  as_ann (mkBody JUndefined JUndefined JUndefined JUndefined (JString "happy")).

(** A log of 51 selections of one user, at the times 0 to 50. *)
Definition db_busy : Db :=
  mkDb [] []
    (map (fun n => MoodSelection.mk "m" "u1" "happy" (Z.of_nat n)) (seq 0 51)).

(** Random indices that move the first card once: 0 at index 2, and the
    index itself elsewhere. *)
Definition first_at_two (i : nat) : nat := if Nat.eqb i 2 then 0%nat else i.

(** ** Auxiliary facts *)

Lemma given_Some (v : JsString) (s : string) :
  given v = Some s -> v = Some s /\ s <> "".
Proof.
  destruct v as [x|]; simpl; [|discriminate].
  destruct (String.eqb_spec x ""); [discriminate|].
  intros E. injection E as ->. auto.
Qed.

Lemma given_intro (s : string) : s <> "" -> given (Some s) = Some s.
Proof.
  intros H. simpl. destruct (String.eqb_spec s ""); [contradiction|reflexivity].
Qed.

Lemma required_nonempty (s : string) : s <> "" -> required s = true.
Proof.
  intros H. unfold required. destruct (String.eqb_spec s ""); [contradiction|reflexivity].
Qed.

Lemma required_true (s : string) : required s = true -> s <> "".
Proof.
  unfold required. destruct (String.eqb_spec s ""); [discriminate|auto].
Qed.

Lemma text_Some (v : JsValue) (s : string) :
  text v = Some s -> v = JString s /\ s <> "" /\ truthy v = true.
Proof.
  destruct v; simpl; try discriminate.
  destruct (String.eqb_spec s0 ""); [discriminate|].
  intros E. injection E as ->. auto.
Qed.

Lemma text_intro (s : string) : s <> "" -> text (JString s) = Some s.
Proof.
  intros H. simpl. destruct (String.eqb_spec s ""); [contradiction|reflexivity].
Qed.

Lemma String_path_text (M : Mongoose) (path : string) (v : JsValue)
  (s : string) :
  text v = Some s -> String_path path v = inr s.
Proof.
  intros H. apply text_Some in H as (-> & H & _).
  unfold String_path. now rewrite (required_nonempty _ H).
Qed.

Lemma String_path_nonempty (M : Mongoose) (path : string) (v : JsValue)
  (s : string) :
  String_path path v = inr s -> s <> "".
Proof.
  unfold String_path.
  destruct (match v with
            | JUndefined | JNull => None
            | JString s0 => Some s0
            | _ => castString v
            end) as [c|]; [|discriminate].
  destruct (required c) eqn:E; [|discriminate].
  intros H. injection H as <-. now apply required_true.
Qed.

Lemma String_path_blank (M : Mongoose) (path : string) (v : JsValue) :
  blank v = true -> String_path path v = inl (ValidationError path).
Proof.
  destruct v; simpl; try discriminate; try reflexivity.
  intros E. unfold String_path, required. now rewrite E.
Qed.

Lemma findOne_None_existsb (db : Db) (e : string) :
  User_findOne db e = None ->
  existsb (fun u => String.eqb (User.email u) e) (users db) = false.
Proof.
  unfold User_findOne. induction (users db) as [|u l IH]; simpl; [reflexivity|].
  destruct (String.eqb (User.email u) e); [discriminate|]. exact IH.
Qed.

Lemma existsb_findOne_None (db : Db) (e : string) :
  existsb (fun u => String.eqb (User.email u) e) (users db) = false ->
  User_findOne db e = None.
Proof.
  unfold User_findOne. induction (users db) as [|u l IH]; simpl; [reflexivity|].
  destruct (String.eqb (User.email u) e); [discriminate|]. exact IH.
Qed.

Lemma findOne_of_In (db : Db) (u : User.t) :
  In u (users db) -> exists v, User_findOne db (User.email u) = Some v.
Proof.
  unfold User_findOne. induction (users db) as [|w l IH]; simpl; [tauto|].
  intros [->|H].
  - rewrite String.eqb_refl. eauto.
  - destruct (String.eqb (User.email w) (User.email u)); eauto.
Qed.

Lemma findOne_In (db : Db) (e : string) (u : User.t) :
  User_findOne db e = Some u -> In u (users db) /\ User.email u = e.
Proof.
  unfold User_findOne. intros H. apply find_some in H as [H1 H2].
  split; [exact H1|]. now apply String.eqb_eq.
Qed.

Lemma findOne_by_In (M : Mongoose) (db : Db) (v : JsValue) (u : User.t) :
  User_findOne_by db v = inr (Some u) -> In u (users db).
Proof.
  destruct v; simpl; try apply findOne_cast_stored.
  intros H. injection H as H. now apply findOne_In in H.
Qed.

(** A new user with non-empty fields and an email nobody has is saved. *)
Lemma User_save_fresh (db : Db) (user : User.t) :
  User.name user <> "" -> User.email user <> "" -> User.password user <> "" ->
  User_findOne db (User.email user) = None ->
  User_save db user =
  inr (mkDb (users db ++ [user]) (contacts db) (moodselections db)).
Proof.
  intros Hn He Hp Hf. unfold User_save.
  rewrite (required_nonempty _ Hn), (required_nonempty _ He),
    (required_nonempty _ Hp).
  simpl. now rewrite (@findOne_None_existsb db _ Hf).
Qed.

(** A saved user is appended, has its required fields, and has an email
    nobody had. *)
Lemma User_save_inr (db db' : Db) (user : User.t) :
  User_save db user = inr db' ->
  db' = mkDb (users db ++ [user]) (contacts db) (moodselections db)
  /\ User.name user <> "" /\ User.email user <> ""
  /\ User_findOne db (User.email user) = None.
Proof.
  unfold User_save.
  destruct (required (User.name user)) eqn:Hn; simpl; [|discriminate].
  destruct (required (User.email user)) eqn:He; simpl; [|discriminate].
  destruct (required (User.password user)); simpl; [|discriminate].
  destruct (existsb _ (users db)) eqn:Hex; [discriminate|].
  intros H. injection H as <-.
  auto using required_true, existsb_findOne_None.
Qed.

Lemma User_new_inr (M : Mongoose) (env : Env) (name email : JsValue)
  (password : string) (user : User.t) :
  User_new env name email password = inr user ->
  exists n e,
    String_path "name" name = inr n /\ String_path "email" email = inr e
    /\ user = User.mk (oid env) n e password (now env).
Proof.
  unfold User_new.
  destruct (String_path "name" name) as [?|n];
    destruct (String_path "email" email) as [?|e]; try discriminate.
  intros H. injection H as <-. eauto.
Qed.

(** ** Signup *)

Lemma signup_missing (B : Bcrypt) (M : Mongoose) (J : Jwt)
  (secret : JsString) (db : Db) (env : Env) (req : Request) :
  truthy (b_name (body req)) = false \/ truthy (b_email (body req)) = false
  \/ truthy (b_password (body req)) = false ->
  signup secret db env req =
  (db, failure 400 "Please provide all required fields").
Proof.
  unfold signup. cbv zeta. intros [H|[H|H]]; rewrite H; simpl.
  - reflexivity.
  - now rewrite orb_true_r.
  - now rewrite orb_true_r.
Qed.

Lemma signup_present (B : Bcrypt) (M : Mongoose) (J : Jwt)
  (secret : JsString) (db : Db) (env : Env) (req : Request) :
  truthy (b_name (body req)) = true -> truthy (b_email (body req)) = true ->
  truthy (b_password (body req)) = true ->
  signup secret db env req =
  match User_findOne_by db (b_email (body req)) with
  | inl error => (db, failure 500 "Server error. Please try again.")
  | inr (Some existingUser) => (db, failure 400 "Email already registered")
  | inr None =>
      match bcrypt_hash_of (b_password (body req)) 10 (salt env) with
      | None => (db, failure 500 "Server error. Please try again.")
      | Some hashedPassword =>
          match User_new env (b_name (body req)) (b_email (body req))
                  hashedPassword with
          | inl error => (db, failure 500 "Server error. Please try again.")
          | inr user =>
              match User_save db user with
              | inl error =>
                  (db, failure 500 "Server error. Please try again.")
              | inr db' =>
                  (db',
                   mkResponse 201 true
                     (Session "Account created successfully! 🎉"
                        (jwt_sign (User._id user) (User.email user)
                           (User.name user) (JWT_SECRET secret) (now env))
                        (user_view user)))
              end
          end
      end
  end.
Proof.
  intros Hn He Hp. unfold signup. cbv zeta. now rewrite Hn, He, Hp.
Qed.

Lemma signup_given (B : Bcrypt) (M : Mongoose) (J : Jwt) (secret : JsString)
  (db : Db) (env : Env) (req : Request) (n e p : string) :
  text (b_name (body req)) = Some n ->
  text (b_email (body req)) = Some e ->
  text (b_password (body req)) = Some p ->
  signup secret db env req =
  match User_findOne db e with
  | Some _ => (db, failure 400 "Email already registered")
  | None => created B J secret db env n e p
  end.
Proof.
  intros Hn He Hp.
  pose proof (text_Some _ _ Hn) as (En & Hn' & Tn).
  pose proof (text_Some _ _ He) as (Ee & He' & Te).
  pose proof (text_Some _ _ Hp) as (Ep & Hp' & Tp).
  rewrite (signup_present B M J secret db env req Tn Te Tp).
  rewrite Ee, Ep. simpl User_findOne_by. simpl bcrypt_hash_of.
  destruct (User_findOne db e) eqn:Hf; [reflexivity|].
  unfold User_new. rewrite <- Ee.
  rewrite (String_path_text M "name" _ n Hn),
    (String_path_text M "email" _ e He).
  rewrite User_save_fresh; simpl; auto using bcrypt_hash_nonempty.
Qed.

(** What a signup does to the database: nothing, or it appends the user it
    answers 201 for, whose password is the hash of a string password. *)
Lemma signup_effect (B : Bcrypt) (M : Mongoose) (J : Jwt) (secret : JsString)
  (db : Db) (env : Env) (req : Request) :
  (fst (signup secret db env req) = db
   /\ forall message token view,
        payload (snd (signup secret db env req))
        <> Session message token view)
  \/ exists n e p,
       text (b_password (body req)) = Some p
       /\ n <> "" /\ e <> "" /\ User_findOne db e = None
       /\ signup secret db env req = created B J secret db env n e p.
Proof.
  destruct (truthy (b_name (body req))) eqn:Tn;
    [|left; rewrite signup_missing by auto; split; [reflexivity|discriminate]].
  destruct (truthy (b_email (body req))) eqn:Te;
    [|left; rewrite signup_missing by auto; split; [reflexivity|discriminate]].
  destruct (truthy (b_password (body req))) eqn:Tp;
    [|left; rewrite signup_missing by auto; split; [reflexivity|discriminate]].
  rewrite (signup_present B M J secret db env req Tn Te Tp).
  destruct (User_findOne_by db (b_email (body req))) as [?|[?|]];
    try (left; split; [reflexivity|discriminate]).
  destruct (b_password (body req)) as [| |?|?|p|?|?] eqn:Ep; simpl;
    try (left; split; [reflexivity|discriminate]).
  destruct (User_new env (b_name (body req)) (b_email (body req))
              (bcrypt_hash p 10 (salt env))) as [?|user] eqn:Hnew;
    [left; split; [reflexivity|discriminate]|].
  destruct (User_save db user) as [?|db'] eqn:Hsave;
    [left; split; [reflexivity|discriminate]|].
  right. apply User_new_inr in Hnew as (n & e & _ & _ & ->).
  apply User_save_inr in Hsave as (-> & Hn & He & Hf). simpl in *.
  exists n, e, p. repeat split; auto.
  simpl in Tp. destruct (String.eqb p ""); [discriminate|reflexivity].
Qed.

(** C1, as amended. A signup request in which the name, the email or the
    password is missing or otherwise falsy is refused with status 400 and
    the validation message. With all three present, an email that is the
    string of a registered user is refused with status 400 and the
    duplicate-email message. When name, email and password are strings and
    the email is not registered, the password is hashed by [bcrypt.hash]
    with 10 rounds and a salt, the user is stored with that hash, and the
    response has status 201, a session token for the new user and the
    user's id, name and email. A present password that is not a string,
    with a string email that is not registered, makes [bcrypt.hash] reject
    the call: the answer is 500 and nothing is stored. *)
Theorem signup_outcomes (B : Bcrypt) (M : Mongoose) (J : Jwt)
  (secret : JsString) (db : Db) (env : Env) (req : Request) :
  (truthy (b_name (body req)) = false \/ truthy (b_email (body req)) = false
   \/ truthy (b_password (body req)) = false ->
   signup secret db env req =
   (db, failure 400 "Please provide all required fields"))
  /\
  (forall e,
     truthy (b_name (body req)) = true ->
     text (b_email (body req)) = Some e ->
     truthy (b_password (body req)) = true ->
     User_findOne db e <> None ->
     signup secret db env req = (db, failure 400 "Email already registered"))
  /\
  (forall n e p,
     text (b_name (body req)) = Some n ->
     text (b_email (body req)) = Some e ->
     text (b_password (body req)) = Some p ->
     User_findOne db e = None ->
     signup secret db env req =
     (mkDb
        (users db
           ++ [User.mk (oid env) n e (bcrypt_hash p 10 (salt env)) (now env)])
        (contacts db) (moodselections db),
      mkResponse 201 true
        (Session "Account created successfully! 🎉"
           (jwt_sign (oid env) e n (JWT_SECRET secret) (now env))
           (mkUserView (oid env) n e))))
  /\
  (forall e,
     truthy (b_name (body req)) = true ->
     text (b_email (body req)) = Some e ->
     truthy (b_password (body req)) = true ->
     text (b_password (body req)) = None ->
     User_findOne db e = None ->
     signup secret db env req =
     (db, failure 500 "Server error. Please try again.")).
Proof.
  split; [apply signup_missing|]. split; [|split].
  - intros e Tn He Tp Hf.
    pose proof (text_Some _ _ He) as (Ee & _ & Te).
    rewrite (signup_present B M J secret db env req Tn Te Tp), Ee.
    simpl. destruct (User_findOne db e); [reflexivity|congruence].
  - intros n e p Hn He Hp Hf.
    now rewrite (signup_given B M J secret db env req n e p Hn He Hp), Hf.
  - intros e Tn He Tp Hp Hf.
    pose proof (text_Some _ _ He) as (Ee & _ & Te).
    rewrite (signup_present B M J secret db env req Tn Te Tp), Ee.
    simpl User_findOne_by. rewrite Hf.
    destruct (b_password (body req)) as [| |?|?|p|?|?]; try reflexivity.
    simpl in Tp, Hp. destruct (String.eqb p ""); discriminate.
Qed.

(** ** Session tokens *)

Lemma clock_before (t e : Z) : t < 1000 * e -> clockTimestamp t < e.
Proof. intros H. unfold clockTimestamp. apply Z.div_lt_upper_bound; lia. Qed.

Lemma clock_from (t e : Z) : 1000 * e <= t -> e <= clockTimestamp t.
Proof. intros H. unfold clockTimestamp. apply Z.div_le_lower_bound; lia. Qed.

Lemma jwt_verify_sign (J : Jwt) (i e n secret : string) (issued t : Z) :
  jwt_verify (jwt_sign i e n secret issued) secret t =
  let c := mkClaims i e n (clockTimestamp issued)
             (clockTimestamp issued + expiresIn_7d) in
  if exp c <=? clockTimestamp t then inl TokenExpiredError else inr c.
Proof.
  unfold jwt_verify, jwt_sign. rewrite decode_encode.
  now rewrite String.eqb_refl.
Qed.

(** C2. The token issued for a user at time [issued] carries the user's id,
    email and name, the issue time in whole seconds and an expiry exactly
    7 days (604800 seconds) later. Under the same secret it verifies to those
    claims at every time before the expiry instant and is refused as expired
    from the expiry instant on; the middleware then lets the request through
    with the claims, or answers 403 with the invalid-token message. *)
Theorem token_round_trip (J : Jwt) (secret : JsString) (u : User.t)
  (issued : Z) :
  let token :=
    jwt_sign (User._id u) (User.email u) (User.name u) (JWT_SECRET secret)
      issued in
  let claims :=
    mkClaims (User._id u) (User.email u) (User.name u) (clockTimestamp issued)
      (clockTimestamp issued + 604800) in
  (exists sig, decode token = Some (claims, sig))
  /\ issued - 1000 < 1000 * iat claims <= issued
  /\ exp claims = iat claims + 7 * 24 * 60 * 60
  /\ (forall t, t < 1000 * exp claims ->
      jwt_verify token (JWT_SECRET secret) t = inr claims)
  /\ (forall t, 1000 * exp claims <= t ->
      jwt_verify token (JWT_SECRET secret) t = inl TokenExpiredError)
  /\ (forall env req,
      given (header_token (authorization req)) = Some token ->
      (now env < 1000 * exp claims ->
       outcome (authenticateToken secret env req) = Next claims)
      /\
      (1000 * exp claims <= now env ->
       outcome (authenticateToken secret env req) =
       Respond (failure 403 "Invalid or expired token"))).
Proof.
  intros token claims.
  assert (Hok : forall t, t < 1000 * exp claims ->
                jwt_verify token (JWT_SECRET secret) t = inr claims).
  { intros t Ht. unfold token. rewrite jwt_verify_sign. cbv zeta.
    change expiresIn_7d with 604800. apply clock_before in Ht. fold claims.
    destruct (Z.leb_spec (exp claims) (clockTimestamp t)); [lia|reflexivity]. }
  assert (Hko : forall t, 1000 * exp claims <= t ->
                jwt_verify token (JWT_SECRET secret) t = inl TokenExpiredError).
  { intros t Ht. unfold token. rewrite jwt_verify_sign. cbv zeta.
    change expiresIn_7d with 604800. apply clock_from in Ht. fold claims.
    destruct (Z.leb_spec (exp claims) (clockTimestamp t)); [reflexivity|lia]. }
  repeat split; auto.
  - eexists. unfold token, jwt_sign. apply decode_encode.
  - unfold claims, clockTimestamp. cbn [iat].
    pose proof (Z.mul_succ_div_gt issued 1000). lia.
  - unfold claims, clockTimestamp. cbn [iat].
    pose proof (Z.mul_div_le issued 1000). lia.
  - intros Ht. unfold authenticateToken. rewrite H. simpl.
    now rewrite (Hok _ Ht).
  - intros Ht. unfold authenticateToken. rewrite H. simpl.
    now rewrite (Hko _ Ht).
Qed.

(** ** Login *)


Lemma login_missing (B : Bcrypt) (M : Mongoose) (J : Jwt) (secret : JsString)
  (db : Db) (env : Env) (req : Request) :
  truthy (b_email (body req)) = false
  \/ truthy (b_password (body req)) = false ->
  login secret db env req = (db, failure 400 "Please provide email and password").
Proof.
  unfold login. cbv zeta. intros [H|H]; rewrite H; simpl.
  - reflexivity.
  - now rewrite orb_true_r.
Qed.

Lemma login_present (B : Bcrypt) (M : Mongoose) (J : Jwt) (secret : JsString)
  (db : Db) (env : Env) (req : Request) :
  truthy (b_email (body req)) = true ->
  truthy (b_password (body req)) = true ->
  login secret db env req =
  match User_findOne_by db (b_email (body req)) with
  | inl error => (db, failure 500 "Server error. Please try again.")
  | inr None => (db, failure 400 "Invalid email or password")
  | inr (Some u) =>
      match bcrypt_compare_of (b_password (body req)) (User.password u) with
      | None => (db, failure 500 "Server error. Please try again.")
      | Some true =>
          (db,
           ok (Session "Welcome back! 🎉"
                 (jwt_sign (User._id u) (User.email u) (User.name u)
                    (JWT_SECRET secret) (now env))
                 (user_view u)))
      | Some false => (db, failure 400 "Invalid email or password")
      end
  end.
Proof.
  intros He Hp. unfold login. cbv zeta. rewrite He, Hp. simpl.
  destruct (User_findOne_by db (b_email (body req))) as [?|[u|]];
    try reflexivity.
  now destruct (bcrypt_compare_of (b_password (body req)) (User.password u))
    as [[|]|].
Qed.

Lemma login_given (B : Bcrypt) (M : Mongoose) (J : Jwt) (secret : JsString)
  (db : Db) (env : Env) (req : Request) (e p : string) :
  text (b_email (body req)) = Some e ->
  text (b_password (body req)) = Some p ->
  login secret db env req =
  match User_findOne db e with
  | None => (db, failure 400 "Invalid email or password")
  | Some u =>
      if bcrypt_compare p (User.password u)
      then (db,
            ok (Session "Welcome back! 🎉"
                  (jwt_sign (User._id u) (User.email u) (User.name u)
                     (JWT_SECRET secret) (now env))
                  (user_view u)))
      else (db, failure 400 "Invalid email or password")
  end.
Proof.
  intros He Hp.
  pose proof (text_Some _ _ He) as (Ee & _ & Te).
  pose proof (text_Some _ _ Hp) as (Ep & _ & Tp).
  rewrite (login_present B M J secret db env req Te Tp), Ee, Ep. simpl.
  destruct (User_findOne db e) as [u|]; [|reflexivity].
  now destruct (bcrypt_compare p (User.password u)).
Qed.

Lemma login_keeps_db (B : Bcrypt) (M : Mongoose) (J : Jwt) (secret : JsString)
  (db : Db) (env : Env) (req : Request) :
  fst (login secret db env req) = db.
Proof.
  destruct (truthy (b_email (body req))) eqn:Te;
    [|rewrite login_missing; auto].
  destruct (truthy (b_password (body req))) eqn:Tp;
    [|rewrite login_missing; auto].
  rewrite (login_present B M J secret db env req Te Tp).
  destruct (User_findOne_by db (b_email (body req))) as [?|[u|]];
    try reflexivity.
  now destruct (bcrypt_compare_of (b_password (body req)) (User.password u))
    as [[|]|].
Qed.


(** ** Duplicate signups *)

(** C4, as amended. A signup request whose email is that of a stored user
    never changes the database; when it also carries a name and a password
    it is refused with status 400 and the message
    [Email already registered]. *)
Theorem signup_duplicate_email (B : Bcrypt) (M : Mongoose) (J : Jwt)
  (secret : JsString) (db : Db) (env : Env) (req : Request) (u : User.t) :
  In u (users db) ->
  b_email (body req) = JString (User.email u) ->
  fst (signup secret db env req) = db
  /\ (truthy (b_name (body req)) = true ->
      truthy (b_email (body req)) = true ->
      truthy (b_password (body req)) = true ->
      signup secret db env req = (db, failure 400 "Email already registered")).
Proof.
  intros Hin He. destruct (@findOne_of_In db u Hin) as [v Hv].
  assert (Hdup : truthy (b_name (body req)) = true ->
                 truthy (b_email (body req)) = true ->
                 truthy (b_password (body req)) = true ->
                 signup secret db env req
                 = (db, failure 400 "Email already registered")).
  { intros Tn Te Tp.
    rewrite (signup_present B M J secret db env req Tn Te Tp), He.
    simpl. now rewrite Hv. }
  split; [|exact Hdup].
  destruct (truthy (b_name (body req))) eqn:Tn;
    [|rewrite signup_missing; auto].
  destruct (truthy (b_email (body req))) eqn:Te;
    [|rewrite signup_missing; auto].
  destruct (truthy (b_password (body req))) eqn:Tp;
    [|rewrite signup_missing; auto].
  now rewrite Hdup.
Qed.

(** ** The session middleware *)

Lemma split_space_free (s : string) : space_free s = true -> split " " s = [s].
Proof.
  induction s as [|c s IH]; simpl; [reflexivity|].
  destruct (Ascii.eqb c " "); simpl; [discriminate|].
  intros H. now rewrite (IH H).
Qed.

Lemma split_scheme (scheme rest : string) :
  space_free scheme = true ->
  split " " (scheme ++ String " " rest) = scheme :: split " " rest.
Proof.
  induction scheme as [|c s IH]; simpl; [reflexivity|].
  destruct (Ascii.eqb c " "); simpl; [discriminate|].
  intros H. now rewrite (IH H).
Qed.

Lemma header_token_second (scheme token : string) :
  space_free scheme = true -> space_free token = true ->
  header_token (Some (scheme ++ " " ++ token)) = Some token.
Proof.
  intros Hs Ht. unfold header_token.
  destruct (given (Some (scheme ++ " " ++ token))) as [h|] eqn:Hg.
  - apply given_Some in Hg as [Hg _]. injection Hg as <-.
    change (scheme ++ " " ++ token) with (scheme ++ String " " token).
    rewrite (split_scheme _ _ Hs), (split_space_free _ Ht). reflexivity.
  - exfalso. simpl in Hg.
    destruct (String.eqb_spec (scheme ++ String " " token) ""); [|discriminate].
    destruct scheme; discriminate.
Qed.

(** C5, as amended. The middleware takes as token the second of the pieces
    of the Authorization header between single spaces, whatever the first
    piece is: the scheme word is not compared with [Bearer]. A missing
    header, a header without a space, and in general a header whose second
    piece is absent or empty, is answered 401 with the missing-token message
    and nothing is handed to [jwt.verify]. Otherwise exactly that token is
    handed to [jwt.verify]: when it is refused the answer is 403 with the
    invalid-token message, and when it verifies the decoded claims are the
    [req.user] the handler of a protected route runs with. *)
Theorem authenticateToken_outcomes (J : Jwt) (secret : JsString) (env : Env)
  (req : Request) :
  (given (header_token (authorization req)) = None ->
   authenticateToken secret env req =
   mkRun [] (Respond (failure 401 "Access token required")))
  /\
  (forall token,
     given (header_token (authorization req)) = Some token ->
     verified (authenticateToken secret env req) = [token]
     /\ (forall err,
          jwt_verify token (JWT_SECRET secret) (now env) = inl err ->
          outcome (authenticateToken secret env req) =
          Respond (failure 403 "Invalid or expired token"))
     /\ (forall claims,
          jwt_verify token (JWT_SECRET secret) (now env) = inr claims ->
          outcome (authenticateToken secret env req) = Next claims
          /\ forall handler db,
               protected secret handler db env req = handler claims db env req))
  /\ header_token None = None
  /\ (forall header, space_free header = true ->
      given (header_token (Some header)) = None)
  /\ (forall scheme token,
      space_free scheme = true -> space_free token = true ->
      header_token (Some (scheme ++ " " ++ token)) = Some token).
Proof.
  split; [|split; [|split; [|split]]].
  - intros H. unfold authenticateToken. now rewrite H.
  - intros token H. unfold protected, authenticateToken. rewrite H. simpl.
    split; [reflexivity|]. split.
    + intros err E. now rewrite E.
    + intros claims E. rewrite E. auto.
  - reflexivity.
  - intros header H. unfold header_token.
    destruct (given (Some header)) as [h|] eqn:Hg; [|exact Hg].
    apply given_Some in Hg as [Hg _]. injection Hg as <-.
    now rewrite (split_space_free _ H).
  - apply header_token_second.
Qed.

(** ** Listings *)

Lemma In_firstn {A} (n : nat) (l : list A) (x : A) :
  In x (firstn n l) -> In x l.
Proof.
  revert l. induction n as [|n IH]; intros [|a l]; simpl; try tauto.
  intros [->|H]; auto.
Qed.

Lemma StronglySorted_firstn {A} (R : A -> A -> Prop) (n : nat) (l : list A) :
  StronglySorted R l -> StronglySorted R (firstn n l).
Proof.
  intros H. revert n. induction H as [|a l Hl IH Ha]; intros [|n]; simpl;
    try constructor.
  - apply IH.
  - rewrite Forall_forall in *. intros x Hx. apply Ha.
    now apply In_firstn in Hx.
Qed.

Lemma StronglySorted_weaken {A} (R S : A -> A -> Prop) (l : list A) :
  (forall a b, R a b -> S a b) -> StronglySorted R l -> StronglySorted S l.
Proof.
  intros HRS H. induction H as [|a l Hl IH Ha]; constructor; auto.
  eapply Forall_impl; [|exact Ha]. auto.
Qed.

Lemma MoodSort_newest_first (l : list MoodSelection.t) :
  StronglySorted
    (fun a b => MoodSelection.timestamp a >= MoodSelection.timestamp b)
    (MoodSort.sort l).
Proof.
  apply StronglySorted_weaken with (R := fun a b => is_true (MoodNewestFirst.leb a b)).
  - intros a b H. unfold MoodNewestFirst.leb, is_true in H.
    apply Z.leb_le in H. lia.
  - apply MoodSort.StronglySorted_sort.
    intros a b c. unfold MoodNewestFirst.leb, is_true. rewrite !Z.leb_le. lia.
Qed.

Lemma ContactSort_newest_first (l : list Contact.t) :
  StronglySorted (fun a b => Contact.createdAt a >= Contact.createdAt b)
    (ContactSort.sort l).
Proof.
  apply StronglySorted_weaken
    with (R := fun a b => is_true (ContactNewestFirst.leb a b)).
  - intros a b H. unfold ContactNewestFirst.leb, is_true in H.
    apply Z.leb_le in H. lia.
  - apply ContactSort.StronglySorted_sort.
    intros a b c. unfold ContactNewestFirst.leb, is_true. rewrite !Z.leb_le.
    lia.
Qed.

Lemma history_owned (db : Db) (userId : ObjectId) (m : MoodSelection.t) :
  In m (MoodSelection_history db userId) ->
  In m (moodselections db) /\ MoodSelection.userId m = userId.
Proof.
  unfold MoodSelection_history. intros H. apply In_firstn in H.
  apply (Permutation_in m (Permutation_sym (MoodSort.Permuted_sort _))) in H.
  apply filter_In in H as [H1 H2]. split; [exact H1|].
  now apply String.eqb_eq.
Qed.

(** C6. For every request that passes the session middleware as some user,
    and every database, the mood-history route answers 200 with a list in
    which every entry is a stored selection whose [userId] is the id in that
    user's claims, which has at most 50 entries, and in which every entry is
    at least as recent as all entries after it. *)
Theorem mood_history_listing (J : Jwt) (secret : JsString) (db : Db)
  (env : Env) (req : Request) (user : Claims) :
  outcome (authenticateToken secret env req) = Next user ->
  exists history,
    mood_history secret db env req = (db, ok (History history))
    /\ (forall m, In m history ->
        In m (moodselections db) /\ MoodSelection.userId m = id user)
    /\ (length history <= 50)%nat
    /\ StronglySorted
         (fun a b => MoodSelection.timestamp a >= MoodSelection.timestamp b)
         history.
Proof.
  intros Hauth. exists (MoodSelection_history db (id user)).
  split; [|split; [|split]].
  - unfold mood_history, protected. now rewrite Hauth.
  - apply history_owned.
  - unfold MoodSelection_history. apply firstn_le_length.
  - unfold MoodSelection_history. apply StronglySorted_firstn.
    apply MoodSort_newest_first.
Qed.

(** C9. For every request that passes the session middleware, whoever the
    user in the claims is, the contacts route answers 200 with a list that
    holds exactly the stored contact messages (a permutation of the
    collection) and in which every entry was created no earlier than all
    entries after it. *)
Theorem admin_contacts_listing (J : Jwt) (secret : JsString) (db : Db)
  (env : Env) (req : Request) (user : Claims) :
  outcome (authenticateToken secret env req) = Next user ->
  exists listing,
    admin_contacts secret db env req = (db, ok (Contacts listing))
    /\ Permutation (contacts db) listing
    /\ StronglySorted
         (fun a b => Contact.createdAt a >= Contact.createdAt b) listing.
Proof.
  intros Hauth. exists (Contact_all db). split; [|split].
  - unfold admin_contacts, protected. now rewrite Hauth.
  - apply ContactSort.Permuted_sort.
  - apply ContactSort_newest_first.
Qed.

(** ** Mood tracking *)

(** C10. For every request that passes the session middleware and whose body
    has no [mood] or an empty one, the handler itself checks nothing: the
    value goes to the model, whose [required] validator on [mood] rejects the
    save, and the answer is 500 with the tracking-failure message, not a
    400; the database is unchanged. *)
Theorem mood_select_without_mood (M : Mongoose) (J : Jwt) (secret : JsString)
  (db : Db) (env : Env) (req : Request) (user : Claims) :
  outcome (authenticateToken secret env req) = Next user ->
  blank (b_mood (body req)) = true ->
  MoodSelection_save db env (id user) (b_mood (body req))
  = inl (ValidationError "mood")
  /\ mood_select secret db env req = (db, failure 500 "Failed to track mood").
Proof.
  intros Hauth Hmood.
  assert (Hs : MoodSelection_save db env (id user) (b_mood (body req))
               = inl (ValidationError "mood")).
  { unfold MoodSelection_save. now rewrite (String_path_blank M _ _ Hmood). }
  split; [exact Hs|].
  unfold mood_select, protected. rewrite Hauth. cbv zeta. now rewrite Hs.
Qed.

(** ** The contact form *)

Lemma contact_missing (M : Mongoose) (db : Db) (env : Env) (req : Request) :
  truthy (b_name (body req)) = false \/ truthy (b_email (body req)) = false
  \/ truthy (b_message (body req)) = false ->
  contact db env req = (db, failure 400 "Please provide all fields").
Proof.
  unfold contact. cbv zeta. intros [H|[H|H]]; rewrite H; simpl.
  - reflexivity.
  - now rewrite orb_true_r.
  - now rewrite orb_true_r.
Qed.

Lemma contact_present (M : Mongoose) (db : Db) (env : Env) (req : Request) :
  truthy (b_name (body req)) = true -> truthy (b_email (body req)) = true ->
  truthy (b_message (body req)) = true ->
  contact db env req =
  match Contact_new env (b_name (body req)) (b_email (body req))
          (b_message (body req)) with
  | inl error => (db, failure 500 "Failed to send message. Please try again.")
  | inr c =>
      (mkDb (users db) (contacts db ++ [c]) (moodselections db),
       ok (Message
             "Thank you for your message! We'll get back to you soon. 📧"))
  end.
Proof.
  intros Tn Te Tm. unfold contact. cbv zeta. rewrite Tn, Te, Tm. simpl.
  unfold Contact_new.
  destruct (String_path "name" (b_name (body req))) as [?|n] eqn:Hn;
    [reflexivity|].
  destruct (String_path "email" (b_email (body req))) as [?|e] eqn:He;
    [reflexivity|].
  destruct (String_path "message" (b_message (body req))) as [?|m] eqn:Hm;
    [reflexivity|].
  apply String_path_nonempty in Hn, He, Hm.
  unfold Contact_save. simpl.
  now rewrite (required_nonempty _ Hn), (required_nonempty _ He),
    (required_nonempty _ Hm).
Qed.

Lemma contact_given (M : Mongoose) (db : Db) (env : Env) (req : Request)
  (n e m : string) :
  text (b_name (body req)) = Some n ->
  text (b_email (body req)) = Some e ->
  text (b_message (body req)) = Some m ->
  contact db env req =
  (mkDb (users db) (contacts db ++ [Contact.mk (oid env) n e m (now env)])
     (moodselections db),
   ok (Message "Thank you for your message! We'll get back to you soon. 📧")).
Proof.
  intros Hn He Hm.
  pose proof (text_Some _ _ Hn) as (_ & _ & Tn).
  pose proof (text_Some _ _ He) as (_ & _ & Te).
  pose proof (text_Some _ _ Hm) as (_ & _ & Tm).
  rewrite (contact_present M db env req Tn Te Tm). unfold Contact_new.
  now rewrite (String_path_text M _ _ n Hn), (String_path_text M _ _ e He),
    (String_path_text M _ _ m Hm).
Qed.

(** C7, as amended. The contact route checks only that a name, an email and
    a message are present: a submission in which one of them is missing or
    otherwise falsy is refused with status 400 and the validation message
    and nothing is stored. A submission whose three fields are non-empty
    strings is stored and answered 200, whatever its email looks like: the
    route applies no pattern to the email. A submission with a present field
    that has no non-empty string as its cast makes the save fail: the answer
    is 500 and nothing is stored. *)
Theorem contact_outcomes (M : Mongoose) (db : Db) (env : Env)
  (req : Request) :
  (truthy (b_name (body req)) = false \/ truthy (b_email (body req)) = false
   \/ truthy (b_message (body req)) = false ->
   contact db env req = (db, failure 400 "Please provide all fields"))
  /\
  (forall n e m,
     text (b_name (body req)) = Some n ->
     text (b_email (body req)) = Some e ->
     text (b_message (body req)) = Some m ->
     contact db env req =
     (mkDb (users db) (contacts db ++ [Contact.mk (oid env) n e m (now env)])
        (moodselections db),
      ok (Message
            "Thank you for your message! We'll get back to you soon. 📧")))
  /\
  (forall error,
     truthy (b_name (body req)) = true ->
     truthy (b_email (body req)) = true ->
     truthy (b_message (body req)) = true ->
     Contact_new env (b_name (body req)) (b_email (body req))
       (b_message (body req)) = inl error ->
     contact db env req =
     (db, failure 500 "Failed to send message. Please try again.")).
Proof.
  split; [apply contact_missing|]. split; [apply contact_given|].
  intros error Tn Te Tm Hnew.
  now rewrite (contact_present M db env req Tn Te Tm), Hnew.
Qed.

(** ** Passwords *)

Lemma login_session (B : Bcrypt) (M : Mongoose) (J : Jwt) (secret : JsString)
  (db : Db) (env : Env) (req : Request) (message token : string)
  (view : UserView) :
  payload (snd (login secret db env req)) = Session message token view ->
  exists u,
    In u (users db) /\ view = user_view u
    /\ token =
       jwt_sign (User._id u) (User.email u) (User.name u) (JWT_SECRET secret)
         (now env).
Proof.
  destruct (truthy (b_email (body req))) eqn:Te;
    [|rewrite login_missing; auto; discriminate].
  destruct (truthy (b_password (body req))) eqn:Tp;
    [|rewrite login_missing; auto; discriminate].
  rewrite (login_present B M J secret db env req Te Tp).
  destruct (User_findOne_by db (b_email (body req))) as [?|[u|]] eqn:Hf;
    try discriminate.
  apply findOne_by_In in Hf.
  destruct (bcrypt_compare_of (b_password (body req)) (User.password u))
    as [[|]|]; try discriminate.
  simpl. intros E. injection E as _ <- <-. exists u. auto.
Qed.


(** ** Supporting facts: recency, uniqueness, and a session end to end *)

Lemma StronglySorted_app_cross {A} (R : A -> A -> Prop) (l1 l2 : list A) :
  StronglySorted R (l1 ++ l2) ->
  forall a b, In a l1 -> In b l2 -> R a b.
Proof.
  induction l1 as [|x l1 IH]; simpl; intros H a b Ha Hb; [tauto|].
  apply StronglySorted_inv in H as [Hs Hx]. destruct Ha as [->|Ha].
  - rewrite Forall_forall in Hx. apply Hx. apply in_or_app. auto.
  - now apply IH.
Qed.

(** X4. The listed selections are the most recent ones: a selection of the user
    that the sorted list holds beyond the first 50 is no later than any
    listed one. *)
Lemma history_most_recent (db : Db) (userId : ObjectId)
  (m h : MoodSelection.t) :
  In h (MoodSelection_history db userId) ->
  In m
    (skipn 50
       (MoodSort.sort
          (filter (fun m => String.eqb (MoodSelection.userId m) userId)
             (moodselections db)))) ->
  MoodSelection.timestamp h >= MoodSelection.timestamp m.
Proof.
  unfold MoodSelection_history. intros Hh Hm.
  set (sorted := MoodSort.sort _) in *.
  pose proof (MoodSort_newest_first
                (filter (fun m => String.eqb (MoodSelection.userId m) userId)
                   (moodselections db))) as Hs.
  fold sorted in Hs. rewrite <- (firstn_skipn 50 sorted) in Hs.
  exact (StronglySorted_app_cross _ _ _ Hs h m Hh Hm).
Qed.

(** Signup keeps the emails of the users collection pairwise distinct. *)
Lemma signup_keeps_emails_unique (B : Bcrypt) (M : Mongoose) (J : Jwt)
  (secret : JsString) (db : Db) (env : Env) (req : Request) :
  NoDup (map User.email (users db)) ->
  NoDup (map User.email (users (fst (signup secret db env req)))).
Proof.
  intros Hnd.
  destruct (signup_effect B M J secret db env req)
    as [[-> _]|(n & e & p & _ & _ & _ & Hf & ->)]; [exact Hnd|].
  simpl. rewrite map_app. simpl.
  apply NoDup_rev in Hnd. rewrite <- (rev_involutive (_ ++ _)).
  apply NoDup_rev. rewrite rev_app_distr. simpl. constructor; [|exact Hnd].
  rewrite <- in_rev. intros Hin. apply in_map_iff in Hin as (u & Hu & Hin).
  unfold User_findOne in Hf.
  apply (find_none _ _ Hf) in Hin. rewrite Hu, String.eqb_refl in Hin.
  discriminate.
Qed.

(** The session of the specification, run on the reference instance: Ann
    signs up, logs in, fails to log in with a wrong password, records a mood
    with her token and reads it back. *)
Example session_end_to_end :
  let signup_ann :=
    @signup reference_bcrypt reference_mongoose reference_jwt None
      (mkDb [] [] []) (mkEnv 5000 "u1" "s")
      (credentials (JString "Ann") (JString "ann@x.com") (JString "secret1"))
  in
  let db := fst signup_ann in
  let login_ann :=
    @login reference_bcrypt reference_mongoose reference_jwt None db
      (mkEnv 6000 "u2" "t")
      (credentials JUndefined (JString "ann@x.com") (JString "secret1")) in
  let login_wrong :=
    @login reference_bcrypt reference_mongoose reference_jwt None db
      (mkEnv 7000 "u3" "t")
      (credentials JUndefined (JString "ann@x.com") (JString "wrong")) in
  let select :=
    @mood_select reference_mongoose reference_jwt None db
      (mkEnv 8000 "m1" "t") ann_happy in
  let history :=
    @mood_history reference_jwt None (fst select) (mkEnv 9000 "x" "t")
      (as_ann no_body) in
  snd signup_ann
  = mkResponse 201 true
      (Session "Account created successfully! 🎉" ann_token
         (mkUserView "u1" "Ann" "ann@x.com"))
  /\ status (snd login_ann) = 200
  /\ (exists message token,
        payload (snd login_ann)
        = Session message token (mkUserView "u1" "Ann" "ann@x.com"))
  /\ snd login_wrong = failure 400 "Invalid email or password"
  /\ snd select = ok (Message "Mood tracked successfully")
  /\ snd history
     = ok (History [MoodSelection.mk "m1" "u1" "happy" 8000]).
Proof.
  cbv zeta. repeat split; try reflexivity.
  eexists. eexists. reflexivity.
Qed.

(** What the server does with fields that are not strings, on the reference
    instance: a number as password is answered 500 by signup and by a login
    for a registered email, an object as name is answered 500 by the contact
    route, and nothing is stored. *)
Example non_string_fields :
  @signup reference_bcrypt reference_mongoose reference_jwt None db_ann env0
    (credentials (JString "Bob") (JString "bob@x.com") (JNumber 1234567))
  = (db_ann, failure 500 "Server error. Please try again.")
  /\ @login reference_bcrypt reference_mongoose reference_jwt None db_ann env0
       (credentials JUndefined (JString "ann@x.com") (JNumber 123456))
     = (db_ann, failure 500 "Server error. Please try again.")
  /\ @contact reference_mongoose db_ann env0
       (submission (JObject []) (JString "bob@x.com") (JString "hello"))
     = (db_ann, failure 500 "Failed to send message. Please try again.").
Proof. repeat split. Qed.

(** ** The statements at work on the sample data *)

Lemma signup_outcomes_witness :
  @signup reference_bcrypt reference_mongoose reference_jwt None db_ann env0
    (credentials (JString "Bob") (JString "bob@x.com") (JString "hunter2"))
  = created reference_bcrypt reference_jwt None db_ann env0 "Bob" "bob@x.com"
      "hunter2".
Proof.
  apply (proj1
           (proj2
              (proj2
                 (signup_outcomes reference_bcrypt reference_mongoose
                    reference_jwt None db_ann env0
                    (credentials (JString "Bob") (JString "bob@x.com")
                       (JString "hunter2")))))
           "Bob" "bob@x.com" "hunter2" eq_refl eq_refl eq_refl eq_refl).
Defined.

(** C1, refuted as stated. A signup request with a name, an unregistered
    email and the number 1234567 as password lacks no field, yet it is
    answered 500: [bcrypt.hash] rejects a password that is not a string. *)
Lemma signup_number_password :
  truthy (JString "Bob") = true
  /\ truthy (JString "bob@x.com") = true
  /\ truthy (JNumber 1234567) = true
  /\ User_findOne db_ann "bob@x.com" = None
  /\ @signup reference_bcrypt reference_mongoose reference_jwt None db_ann env0
       (credentials (JString "Bob") (JString "bob@x.com") (JNumber 1234567))
     = (db_ann, failure 500 "Server error. Please try again.").
Proof. repeat split. Qed.

Lemma token_round_trip_witness :
  @jwt_verify reference_jwt ann_token (JWT_SECRET None) 604804999
  = inr ann_claims
  /\ @jwt_verify reference_jwt ann_token (JWT_SECRET None) 604805000
     = inl TokenExpiredError.
Proof.
  pose proof (token_round_trip reference_jwt None ann 5000) as H.
  cbv zeta in H. destruct H as (_ & _ & _ & Hok & Hko & _). split.
  - apply Hok. simpl. lia.
  - apply Hko. simpl. lia.
Defined.



Lemma signup_duplicate_email_witness :
  fst (@signup reference_bcrypt reference_mongoose reference_jwt None db_ann
         env0
         (credentials (JString "Ann B") (JString "ann@x.com")
            (JString "hunter2")))
  = db_ann
  /\ @signup reference_bcrypt reference_mongoose reference_jwt None db_ann env0
       (credentials (JString "Ann B") (JString "ann@x.com")
          (JString "hunter2"))
     = (db_ann, failure 400 "Email already registered").
Proof.
  destruct (signup_duplicate_email reference_bcrypt reference_mongoose
              reference_jwt None db_ann env0
              (credentials (JString "Ann B") (JString "ann@x.com")
                 (JString "hunter2"))
              ann) as [Hdb Hdup].
  - simpl. auto.
  - reflexivity.
  - split; [exact Hdb|]. apply Hdup; reflexivity.
Defined.

(** C4, refuted as stated. A signup request with a registered email and no
    name is refused for the missing field, not for the duplicate email. *)
Lemma signup_duplicate_without_name :
  In ann (users db_ann)
  /\ b_email
       (body (credentials JUndefined (JString "ann@x.com") (JString "hunter2")))
     = JString (User.email ann)
  /\ @signup reference_bcrypt reference_mongoose reference_jwt None db_ann env0
       (credentials JUndefined (JString "ann@x.com") (JString "hunter2"))
     = (db_ann, failure 400 "Please provide all required fields")
  /\ failure 400 "Please provide all required fields"
     <> failure 400 "Email already registered".
Proof. repeat split; try reflexivity; [simpl; auto | discriminate]. Qed.

Lemma authenticateToken_outcomes_witness :
  @authenticateToken reference_jwt None env0 (mkRequest (Some "Bearer") no_body)
  = mkRun [] (Respond (failure 401 "Access token required"))
  /\ outcome (@authenticateToken reference_jwt None env0 (as_ann no_body))
     = Next ann_claims.
Proof.
  split.
  - apply (proj1
             (authenticateToken_outcomes reference_jwt None env0
                (mkRequest (Some "Bearer") no_body))).
    reflexivity.
  - apply (proj2
             (authenticateToken_outcomes reference_jwt None env0
                (as_ann no_body))) with (token := ann_token);
      reflexivity.
Defined.

(** C5, refuted as stated. A header that is not in the [Bearer <token>]
    format is not answered 401: its second piece goes to [jwt.verify], which
    refuses [abc] (403) and accepts a valid token behind any scheme word. *)
Lemma authenticateToken_ignores_scheme :
  bearer_format (Some "Basic abc") = false
  /\ @authenticateToken reference_jwt None env0
       (mkRequest (Some "Basic abc") no_body)
     = mkRun ["abc"] (Respond (failure 403 "Invalid or expired token"))
  /\ bearer_format (Some ("Token " ++ ann_token)) = false
  /\ @authenticateToken reference_jwt None env0
       (mkRequest (Some ("Token " ++ ann_token)) no_body)
     = mkRun [ann_token] (Next ann_claims).
Proof. repeat split; reflexivity. Qed.

Lemma mood_history_listing_witness :
  exists history,
    @mood_history reference_jwt None db_log env0 (as_ann no_body)
    = (db_log, ok (History history))
    /\ (forall m, In m history ->
        In m (moodselections db_log) /\ MoodSelection.userId m = "u1")
    /\ (length history <= 50)%nat
    /\ StronglySorted
         (fun a b => MoodSelection.timestamp a >= MoodSelection.timestamp b)
         history.
Proof.
  apply (mood_history_listing reference_jwt None db_log env0 (as_ann no_body)
           ann_claims).
  reflexivity.
Defined.

Lemma admin_contacts_listing_witness :
  exists listing,
    @admin_contacts reference_jwt None db_log env0 (as_ann no_body)
    = (db_log, ok (Contacts listing))
    /\ Permutation (contacts db_log) listing
    /\ StronglySorted
         (fun a b => Contact.createdAt a >= Contact.createdAt b) listing.
Proof.
  apply (admin_contacts_listing reference_jwt None db_log env0
           (as_ann no_body) ann_claims).
  reflexivity.
Defined.

Lemma contact_outcomes_witness :
  @contact reference_mongoose db_ann env0
    (submission (JString "Bob") JUndefined (JString "hello"))
  = (db_ann, failure 400 "Please provide all fields").
Proof.
  apply (proj1
           (contact_outcomes reference_mongoose db_ann env0
              (submission (JString "Bob") JUndefined (JString "hello")))).
  right. left. reflexivity.
Defined.

(** C7, refuted as stated. A submission whose email fails the pattern of
    the client's forms is stored and answered 200. *)
Lemma contact_stores_unmatched_email :
  test emailRegex (units "not-an-email") = false
  /\ @contact reference_mongoose db_ann env0
       (submission (JString "Bob") (JString "not-an-email") (JString "hello"))
     = (mkDb [ann] [Contact.mk "u2" "Bob" "not-an-email" "hello" 5000] [],
        ok (Message
              "Thank you for your message! We'll get back to you soon. 📧")).
Proof. split; reflexivity. Qed.


Lemma mood_select_without_mood_witness :
  @mood_select reference_mongoose reference_jwt None db_ann env0
    (as_ann no_body)
  = (db_ann, failure 500 "Failed to track mood").
Proof.
  apply (mood_select_without_mood reference_mongoose reference_jwt None db_ann
           env0 (as_ann no_body) ann_claims); reflexivity.
Defined.

(** * Further properties of the server and the client *)

(** ** Analytics *)

(** How many selections of [l] have the mood [mood]. *)
Definition occurrences (mood : string) (l : list MoodSelection.t) : Z :=
  Z.of_nat
    (length (filter (fun m => String.eqb (MoodSelection.mood m) mood) l)).

(** The count of the group of [mood], 0 when there is none. *)
Fixpoint tallied (mood : string) (stats : list MoodStat) : Z :=
  match stats with
  | [] => 0
  | s :: rest =>
      if String.eqb (stat_id s) mood then count s else tallied mood rest
  end.

(** The sum of the counts of all groups. *)
Definition total_count (stats : list MoodStat) : Z :=
  fold_right (fun s acc => count s + acc) 0 stats.

Lemma tallied_tally (mood mood' : string) (stats : list MoodStat) :
  tallied mood' (tally mood stats)
  = tallied mood' stats + (if String.eqb mood mood' then 1 else 0).
Proof.
  induction stats as [|s rest IH]; simpl.
  - destruct (String.eqb mood mood'); lia.
  - destruct (String.eqb_spec (stat_id s) mood) as [E|N]; simpl.
    + destruct (String.eqb_spec (stat_id s) mood') as [E'|N'].
      * rewrite <- E, E', String.eqb_refl. reflexivity.
      * destruct (String.eqb_spec mood mood'); [congruence|lia].
    + destruct (String.eqb_spec (stat_id s) mood') as [E'|N'].
      * destruct (String.eqb_spec mood mood'); [congruence|lia].
      * exact IH.
Qed.

Lemma tally_ids (mood x : string) (stats : list MoodStat) :
  In x (map stat_id (tally mood stats))
  <-> x = mood \/ In x (map stat_id stats).
Proof.
  induction stats as [|s rest IH]; simpl.
  - intuition.
  - destruct (String.eqb_spec (stat_id s) mood) as [E|N]; simpl.
    + intuition congruence.
    + rewrite IH. tauto.
Qed.

Lemma tally_NoDup (mood : string) (stats : list MoodStat) :
  NoDup (map stat_id stats) -> NoDup (map stat_id (tally mood stats)).
Proof.
  induction stats as [|s rest IH]; simpl; intros H.
  - constructor; [simpl; tauto|constructor].
  - apply NoDup_cons_iff in H as [Hs Hrest].
    destruct (String.eqb_spec (stat_id s) mood) as [E|N]; simpl.
    + constructor; assumption.
    + constructor; [|auto]. rewrite tally_ids. intuition.
Qed.

Lemma tally_total (mood : string) (stats : list MoodStat) :
  total_count (tally mood stats) = total_count stats + 1.
Proof.
  unfold total_count.
  induction stats as [|s rest IH]; simpl; [reflexivity|].
  destruct (String.eqb (stat_id s) mood); simpl; lia.
Qed.

Lemma tally_positive (mood : string) (stats : list MoodStat) :
  Forall (fun s => 1 <= count s) stats ->
  Forall (fun s => 1 <= count s) (tally mood stats).
Proof.
  induction 1 as [|s rest Hs Hrest IH]; simpl.
  - constructor; [simpl; lia|constructor].
  - destruct (String.eqb (stat_id s) mood); constructor; simpl; auto; lia.
Qed.

Lemma tallied_member (s : MoodStat) (stats : list MoodStat) :
  NoDup (map stat_id stats) -> In s stats ->
  tallied (stat_id s) stats = count s.
Proof.
  induction stats as [|x rest IH]; simpl; [tauto|].
  intros H Hin. apply NoDup_cons_iff in H as [Hx Hrest].
  destruct Hin as [->|Hin].
  - now rewrite String.eqb_refl.
  - destruct (String.eqb_spec (stat_id x) (stat_id s)) as [E|_]; [|auto].
    exfalso. apply Hx. rewrite E. now apply in_map.
Qed.

Lemma occurrences_app (mood : string) (l1 l2 : list MoodSelection.t) :
  occurrences mood (l1 ++ l2) = occurrences mood l1 + occurrences mood l2.
Proof. unfold occurrences. rewrite filter_app, length_app. lia. Qed.

(** What the groups record of the selections seen so far. *)
Definition groups_of (stats : list MoodStat) (seen : list MoodSelection.t)
  : Prop :=
  NoDup (map stat_id stats)
  /\ (forall mood, tallied mood stats = occurrences mood seen)
  /\ Forall (fun s => 1 <= count s) stats
  /\ total_count stats = Z.of_nat (length seen)
  /\ (forall x, In x (map stat_id stats)
                <-> In x (map MoodSelection.mood seen)).

Lemma groups_of_fold (l seen : list MoodSelection.t) (stats : list MoodStat) :
  groups_of stats seen ->
  groups_of
    (fold_left (fun stats m => tally (MoodSelection.mood m) stats) l stats)
    (seen ++ l).
Proof.
  revert seen stats. induction l as [|m l IH]; intros seen stats H; simpl.
  - now rewrite app_nil_r.
  - replace (seen ++ m :: l)%list with ((seen ++ [m]) ++ l)%list
      by now rewrite <- app_assoc.
    apply IH. destruct H as (Hnd & Hcount & Hpos & Htot & Hids).
    split; [now apply tally_NoDup|]. split; [|split; [|split]].
    + intros mood. rewrite tallied_tally, occurrences_app, Hcount.
      f_equal. unfold occurrences. simpl.
      destruct (String.eqb (MoodSelection.mood m) mood); reflexivity.
    + now apply tally_positive.
    + rewrite tally_total, Htot, length_app. simpl. lia.
    + intros x. rewrite tally_ids, map_app, in_app_iff, Hids. simpl.
      intuition.
Qed.

(** X1. For every request that passes the session middleware, the analytics
    route answers with the sizes of the three collections and one group per
    mood that occurs in the log: the group ids are pairwise distinct and are
    exactly the moods of the stored selections, each count is the number of
    selections with that mood (so at least 1), and the counts add up to
    [totalMoodSelections]. The database is unchanged. *)
Theorem analytics_mood_distribution (J : Jwt) (secret : JsString) (db : Db)
  (env : Env) (req : Request) (user : Claims) :
  outcome (authenticateToken secret env req) = Next user ->
  exists a,
    admin_analytics secret db env req = (db, AnalyticsJson a)
    /\ totalUsers a = Z.of_nat (length (users db))
    /\ totalContacts a = Z.of_nat (length (contacts db))
    /\ totalMoodSelections a = Z.of_nat (length (moodselections db))
    /\ NoDup (map stat_id (moodStats a))
    /\ (forall x, In x (map stat_id (moodStats a))
                  <-> In x (map MoodSelection.mood (moodselections db)))
    /\ (forall s, In s (moodStats a) ->
          count s = occurrences (stat_id s) (moodselections db)
          /\ 1 <= count s)
    /\ total_count (moodStats a) = totalMoodSelections a.
Proof.
  intros Hauth. unfold admin_analytics. rewrite Hauth. cbv zeta.
  eexists. split; [reflexivity|]. simpl.
  assert (G : groups_of (MoodSelection_aggregate db) (moodselections db)).
  { unfold MoodSelection_aggregate.
    apply (groups_of_fold (moodselections db) [] []).
    repeat split; simpl; try constructor; tauto. }
  destruct G as (Hnd & Hcount & Hpos & Htot & Hids).
  repeat split; auto.
  - apply Hids.
  - apply Hids.
  - rewrite <- Hcount. symmetry. now apply tallied_member.
  - rewrite Forall_forall in Hpos. auto.
Qed.

(** ** Recording and reading moods *)

Lemma mood_select_as (M : Mongoose) (J : Jwt) (secret : JsString) (db : Db)
  (env : Env) (req : Request) (user : Claims) :
  outcome (authenticateToken secret env req) = Next user ->
  mood_select secret db env req =
  match String_path "mood" (b_mood (body req)) with
  | inl error => (db, failure 500 "Failed to track mood")
  | inr m =>
      (mkDb (users db) (contacts db)
         (moodselections db
            ++ [MoodSelection.mk (oid env) (id user) m (now env)]),
       ok (Message "Mood tracked successfully"))
  end.
Proof.
  intros Hauth. unfold mood_select, protected. rewrite Hauth. cbv zeta.
  unfold MoodSelection_save.
  now destruct (String_path "mood" (b_mood (body req))).
Qed.

Lemma mood_select_given (M : Mongoose) (J : Jwt) (secret : JsString)
  (db : Db) (env : Env) (req : Request) (user : Claims) (m : string) :
  outcome (authenticateToken secret env req) = Next user ->
  text (b_mood (body req)) = Some m ->
  mood_select secret db env req =
  (mkDb (users db) (contacts db)
     (moodselections db
        ++ [MoodSelection.mk (oid env) (id user) m (now env)]),
   ok (Message "Mood tracked successfully")).
Proof.
  intros Hauth Hm.
  now rewrite (mood_select_as M J secret db env req user Hauth),
    (String_path_text M _ _ m Hm).
Qed.

(** What the mood route does to the database: nothing, or it appends one
    selection owned by the user of the token. *)
Lemma mood_select_effect (M : Mongoose) (J : Jwt) (secret : JsString)
  (db : Db) (env : Env) (req : Request) :
  fst (mood_select secret db env req) = db
  \/ exists user m,
       outcome (authenticateToken secret env req) = Next user
       /\ m <> ""
       /\ fst (mood_select secret db env req)
          = mkDb (users db) (contacts db)
              (moodselections db
                 ++ [MoodSelection.mk (oid env) (id user) m (now env)]).
Proof.
  destruct (outcome (authenticateToken secret env req)) as [r|user] eqn:Hauth.
  - left. unfold mood_select, protected. now rewrite Hauth.
  - rewrite (mood_select_as M J secret db env req user Hauth).
    destruct (String_path "mood" (b_mood (body req))) as [?|m] eqn:Hm;
      [now left|].
    right. exists user, m. apply String_path_nonempty in Hm. auto.
Qed.

(** X3. A mood recorded by one user never shows in, and never removes anything
    from, the history of a user with another id: after the mood route ran for
    a request of [user], the history of every other id is what it was. *)
Theorem mood_select_isolated (M : Mongoose) (J : Jwt) (secret : JsString)
  (db : Db) (env : Env) (req : Request) (user : Claims) (other : ObjectId) :
  outcome (authenticateToken secret env req) = Next user ->
  id user <> other ->
  MoodSelection_history (fst (mood_select secret db env req)) other
  = MoodSelection_history db other.
Proof.
  intros Hauth Hother.
  rewrite (mood_select_as M J secret db env req user Hauth).
  destruct (String_path "mood" (b_mood (body req))) as [?|m];
    [reflexivity|].
  unfold MoodSelection_history. simpl. rewrite filter_app. simpl.
  destruct (String.eqb_spec (id user) other); [contradiction|].
  now rewrite app_nil_r.
Qed.

Lemma sorted_head_latest (l : list MoodSelection.t) (x : MoodSelection.t) :
  (forall y, In y l -> MoodSelection.timestamp y < MoodSelection.timestamp x) ->
  exists rest, MoodSort.sort (l ++ [x]) = x :: rest.
Proof.
  intros Hlate.
  pose proof (MoodSort.Permuted_sort (l ++ [x])) as Hperm.
  pose proof (MoodSort_newest_first (l ++ [x])) as Hsorted.
  destruct (MoodSort.sort (l ++ [x])) as [|h t] eqn:Hs.
  - apply Permutation_sym, Permutation_nil in Hperm.
    now destruct l.
  - assert (Hx : In x (h :: t)).
    { apply (Permutation_in x Hperm). apply in_or_app. simpl. auto. }
    assert (Hh : In h (l ++ [x])).
    { apply (Permutation_in h (Permutation_sym Hperm)). simpl. auto. }
    apply in_app_or in Hh as [Hh|[Hh|[]]]; [|subst h; eauto].
    exfalso. specialize (Hlate h Hh).
    destruct Hx as [Hx|Hx]; [subst h; lia|].
    apply StronglySorted_inv in Hsorted as [_ Hall].
    rewrite Forall_forall in Hall. specialize (Hall x Hx). lia.
Qed.

(** ** From signup to later requests *)

Lemma findOne_appended (db : Db) (user : User.t) :
  User_findOne db (User.email user) = None ->
  User_findOne
    (mkDb (users db ++ [user]) (contacts db) (moodselections db))
    (User.email user) = Some user.
Proof.
  unfold User_findOne. simpl.
  induction (users db) as [|u l IH]; simpl.
  - now rewrite String.eqb_refl.
  - destruct (String.eqb (User.email u) (User.email user)); [discriminate|].
    exact IH.
Qed.

(** X6. After a signup that stored a user, a login with the same email and
    password, for which [bcrypt.compare] accepts the password against the
    hash just stored, answers 200 with a fresh token and the id, name and
    email of that user; a login with a password that [bcrypt.compare]
    rejects is answered 400. Neither login changes the database. *)
Theorem signup_then_login (B : Bcrypt) (M : Mongoose) (J : Jwt)
  (secret : JsString) (db : Db) (env env2 : Env) (req req2 : Request)
  (n e p p2 : string) :
  text (b_name (body req)) = Some n ->
  text (b_email (body req)) = Some e ->
  text (b_password (body req)) = Some p ->
  User_findOne db e = None ->
  text (b_email (body req2)) = Some e ->
  text (b_password (body req2)) = Some p2 ->
  let db' := fst (signup secret db env req) in
  let stored := bcrypt_hash p 10 (salt env) in
  (bcrypt_compare p2 stored = true ->
   login secret db' env2 req2
   = (db',
      ok (Session "Welcome back! 🎉"
            (jwt_sign (oid env) e n (JWT_SECRET secret) (now env2))
            (mkUserView (oid env) n e))))
  /\ (bcrypt_compare p2 stored = false ->
      login secret db' env2 req2
      = (db', failure 400 "Invalid email or password")).
Proof.
  intros Hn He Hp Hf He2 Hp2 db' stored.
  assert (Hdb : db' =
                mkDb (users db ++ [User.mk (oid env) n e stored (now env)])
                  (contacts db) (moodselections db)).
  { unfold db'. rewrite (signup_given B M J secret db env req n e p Hn He Hp).
    now rewrite Hf. }
  assert (Hfound : User_findOne db' e
                   = Some (User.mk (oid env) n e stored (now env))).
  { rewrite Hdb.
    exact (findOne_appended db (User.mk (oid env) n e stored (now env)) Hf). }
  rewrite (login_given B M J secret db' env2 req2 e p2 He2 Hp2), Hfound.
  simpl User.password. split; intros ->; reflexivity.
Qed.

Lemma session_token_signed (B : Bcrypt) (M : Mongoose) (J : Jwt)
  (secret : JsString) (db : Db) (env : Env) (req : Request)
  (message token : string) (view : UserView) :
  payload (snd (signup secret db env req)) = Session message token view
  \/ payload (snd (login secret db env req)) = Session message token view ->
  token =
  jwt_sign (v_id view) (v_email view) (v_name view) (JWT_SECRET secret)
    (now env).
Proof.
  intros [H|H].
  - destruct (signup_effect B M J secret db env req)
      as [[_ Hno]|(n & e & p & _ & _ & _ & _ & Hs)];
      [now apply Hno in H|].
    rewrite Hs in H. simpl in H. injection H as _ <- <-. reflexivity.
  - apply login_session in H as (u & _ & -> & ->). reflexivity.
Qed.

(** X8. The token of a signup or login response, presented to the verify route
    before 7 days have passed on the token clock, is answered 200 with the
    claims of the response's user object: the same id, email and name, the
    issue time and the expiry. The database the route runs on is unchanged. *)
Theorem session_token_verifies (B : Bcrypt) (M : Mongoose) (J : Jwt)
  (secret : JsString)
  (db db2 : Db) (env env2 : Env) (req req2 : Request)
  (message token : string) (view : UserView) :
  payload (snd (signup secret db env req)) = Session message token view
  \/ payload (snd (login secret db env req)) = Session message token view ->
  given (header_token (authorization req2)) = Some token ->
  now env2 < 1000 * (clockTimestamp (now env) + 604800) ->
  auth_verify secret db2 env2 req2
  = (db2,
     ok (Verified
           (mkClaims (v_id view) (v_email view) (v_name view)
              (clockTimestamp (now env))
              (clockTimestamp (now env) + 604800)))).
Proof.
  intros Hsession Hheader Hfresh.
  rewrite (session_token_signed B M J secret db env req message token view
             Hsession) in Hheader.
  unfold auth_verify, protected, authenticateToken.
  rewrite Hheader. simpl outcome. rewrite jwt_verify_sign. cbv zeta.
  change expiresIn_7d with 604800. apply clock_before in Hfresh.
  cbn [exp].
  destruct (Z.leb_spec (clockTimestamp (now env) + 604800)
              (clockTimestamp (now env2))); [lia|reflexivity].
Qed.

(** ** The application as a whole *)

(** What one request can do to the database: nothing, or append one
    document that passed the schema of its collection. *)
Inductive grows (B : Bcrypt) (env : Env) (db : Db) : Route -> Db -> Prop :=
| grows_not (route : Route) : grows B env db route db
| grows_user (n e p : string) :
    n <> "" -> e <> "" -> User_findOne db e = None ->
    grows B env db POST_auth_signup
      (mkDb
         (users db
            ++ [User.mk (oid env) n e (bcrypt_hash p 10 (salt env)) (now env)])
         (contacts db) (moodselections db))
| grows_contact (n e m : string) :
    n <> "" -> e <> "" -> m <> "" ->
    grows B env db POST_contact
      (mkDb (users db)
         (contacts db ++ [Contact.mk (oid env) n e m (now env)])
         (moodselections db))
| grows_mood (userId : ObjectId) (m : string) :
    m <> "" ->
    grows B env db POST_mood_select
      (mkDb (users db) (contacts db)
         (moodselections db
            ++ [MoodSelection.mk (oid env) userId m (now env)])).

Lemma protected_keeps_db (J : Jwt) (secret : JsString)
  (handler : Claims -> Db -> Env -> Request -> Db * Response) (db : Db)
  (env : Env) (req : Request) :
  (forall user, fst (handler user db env req) = db) ->
  fst (protected secret handler db env req) = db.
Proof.
  intros H. unfold protected.
  destruct (outcome (authenticateToken secret env req)); [reflexivity|apply H].
Qed.

Lemma contact_effect (M : Mongoose) (db : Db) (env : Env) (req : Request) :
  fst (contact db env req) = db
  \/ exists n e m,
       n <> "" /\ e <> "" /\ m <> ""
       /\ fst (contact db env req)
          = mkDb (users db)
              (contacts db ++ [Contact.mk (oid env) n e m (now env)])
              (moodselections db).
Proof.
  destruct (truthy (b_name (body req))) eqn:Tn;
    [|left; now rewrite contact_missing by auto].
  destruct (truthy (b_email (body req))) eqn:Te;
    [|left; now rewrite contact_missing by auto].
  destruct (truthy (b_message (body req))) eqn:Tm;
    [|left; now rewrite contact_missing by auto].
  rewrite (contact_present M db env req Tn Te Tm). unfold Contact_new.
  destruct (String_path "name" (b_name (body req))) as [?|n] eqn:Hn;
    [now left|].
  destruct (String_path "email" (b_email (body req))) as [?|e] eqn:He;
    [now left|].
  destruct (String_path "message" (b_message (body req))) as [?|m] eqn:Hm;
    [now left|].
  apply String_path_nonempty in Hn, He, Hm.
  right. exists n, e, m. auto.
Qed.

Lemma serve_grows (B : Bcrypt) (M : Mongoose) (J : Jwt) (secret : JsString)
  (route : Route) (db : Db) (env : Env) (req : Request) :
  grows B env db route (fst (serve secret route db env req)).
Proof.
  destruct route; unfold serve; cbv zeta; cbn [fst].
  - destruct (signup_effect B M J secret db env req)
      as [[-> _]|(n & e & p & _ & Hn & He & Hf & ->)]; [constructor|].
    now apply grows_user.
  - rewrite login_keeps_db. constructor.
  - unfold auth_verify. rewrite protected_keeps_db; [constructor|reflexivity].
  - destruct (mood_select_effect M J secret db env req)
      as [->|(user & m & _ & Hm & ->)]; [constructor|].
    now apply grows_mood.
  - unfold mood_history. rewrite protected_keeps_db; [constructor|reflexivity].
  - destruct (contact_effect M db env req)
      as [->|(n & e & m & Hn & He & Hm & ->)]; [constructor|].
    now apply grows_contact.
  - unfold admin_contacts.
    rewrite protected_keeps_db; [constructor|reflexivity].
  - unfold admin_analytics.
    destruct (outcome (authenticateToken secret env req)); constructor.
Qed.

(** X9. No route changes or removes a stored document: after any request each
    collection is the old one followed by new documents, at most one in
    all; a new user can only come from the signup route, a new contact
    message only from the contact route, and a new mood selection only from
    the mood route. Every other route leaves the database as it was. *)
Theorem routes_append_only (B : Bcrypt) (M : Mongoose) (J : Jwt)
  (secret : JsString)
  (route : Route) (db : Db) (env : Env) (req : Request) :
  exists us cs ms,
    users (fst (serve secret route db env req)) = (users db ++ us)%list
    /\ contacts (fst (serve secret route db env req))
       = (contacts db ++ cs)%list
    /\ moodselections (fst (serve secret route db env req))
       = (moodselections db ++ ms)%list
    /\ (length us + length cs + length ms <= 1)%nat
    /\ (us <> [] -> route = POST_auth_signup)
    /\ (cs <> [] -> route = POST_contact)
    /\ (ms <> [] -> route = POST_mood_select)
    /\ (us = [] -> cs = [] -> ms = [] ->
        fst (serve secret route db env req) = db).
Proof.
  destruct (serve_grows B M J secret route db env req).
  - exists [], [], []. rewrite !app_nil_r. simpl.
    repeat split; auto; congruence.
  - eexists [_], [], []. rewrite !app_nil_r. simpl.
    repeat split; auto; congruence.
  - eexists [], [_], []. rewrite !app_nil_r. simpl.
    repeat split; auto; congruence.
  - eexists [], [], [_]. rewrite !app_nil_r. simpl.
    repeat split; auto; congruence.
Qed.

(** X10. A route registered behind [authenticateToken] does nothing for a request
    the middleware answers itself: the reply is the middleware's, its status
    is 401 or 403 with [success] false, and the database is unchanged. *)
Theorem protected_routes_gate (B : Bcrypt) (M : Mongoose) (J : Jwt)
  (secret : JsString)
  (route : Route) (db : Db) (env : Env) (req : Request) (r : Response) :
  behind_token route = true ->
  outcome (authenticateToken secret env req) = Respond r ->
  serve secret route db env req = (db, Json r)
  /\ (status r = 401 \/ status r = 403)
  /\ success r = false.
Proof.
  intros Hroute Hout. split.
  - destruct route; try discriminate; unfold serve; cbv zeta;
      unfold auth_verify, mood_select, mood_history, admin_contacts,
        admin_analytics, protected; now rewrite Hout.
  - unfold authenticateToken in Hout.
    destruct (given (header_token (authorization req))) as [token|].
    + simpl in Hout.
      destruct (jwt_verify token (JWT_SECRET secret) (now env));
        [|discriminate].
      injection Hout as <-. simpl. auto.
    + simpl in Hout. injection Hout as <-. simpl. auto.
Qed.

(** The schema of the stored documents: user emails are pairwise distinct,
    every user has a name, an email and a password that is a hash made by
    [bcrypt.hash] with 10 rounds, every contact message has its three
    fields, and every mood selection has a mood. *)
Definition schema_holds (B : Bcrypt) (db : Db) : Prop :=
  NoDup (map User.email (users db))
  /\ Forall
       (fun u =>
          User.name u <> "" /\ User.email u <> ""
          /\ exists p s, User.password u = bcrypt_hash p 10 s)
       (users db)
  /\ Forall
       (fun c =>
          Contact.name c <> "" /\ Contact.email c <> ""
          /\ Contact.message c <> "")
       (contacts db)
  /\ Forall (fun m => MoodSelection.mood m <> "") (moodselections db).

Lemma NoDup_snoc {A} (l : list A) (x : A) :
  NoDup l -> ~ In x l -> NoDup (l ++ [x]).
Proof.
  intros Hl Hx. apply NoDup_rev in Hl.
  rewrite <- (rev_involutive (l ++ [x])). apply NoDup_rev.
  rewrite rev_app_distr. simpl. constructor; [|exact Hl].
  now rewrite <- in_rev.
Qed.

Lemma grows_keeps_schema (B : Bcrypt) (env : Env) (db db' : Db)
  (route : Route) :
  grows B env db route db' -> schema_holds B db -> schema_holds B db'.
Proof.
  intros Hg (Hnd & Hu & Hc & Hm).
  destruct Hg as [route|n e p Hn He Hf|n e m Hn He Hm'|uid m Hm'];
    unfold schema_holds; simpl.
  - auto.
  - split; [|split; [|auto]].
    + rewrite map_app. simpl. apply NoDup_snoc; [exact Hnd|].
      intros Hin. apply in_map_iff in Hin as (u & Hu' & Hin).
      unfold User_findOne in Hf. apply (find_none _ _ Hf) in Hin.
      rewrite Hu', String.eqb_refl in Hin. discriminate.
    + apply Forall_app. split; [exact Hu|].
      constructor; [|constructor]. simpl. eauto.
  - split; [auto|]. split; [auto|]. split; [|auto].
    apply Forall_app. split; [exact Hc|]. constructor; [|constructor].
    simpl. auto.
  - split; [auto|]. split; [auto|]. split; [auto|].
    apply Forall_app. split; [exact Hm|]. constructor; [|constructor].
    simpl. auto.
Qed.

(** X11. The schema is an invariant of the application: if it holds of a
    database, it holds after any sequence of requests to any routes. In
    particular the users collection never holds two users with one email,
    and never a password that is not a [bcrypt.hash] output. *)
Theorem run_keeps_schema (B : Bcrypt) (M : Mongoose) (J : Jwt)
  (secret : JsString)
  (requests : list (Route * Env * Request)) (db : Db) :
  schema_holds B db -> schema_holds B (run secret db requests).
Proof.
  revert db. induction requests as [|[[route env] req] rest IH];
    intros db H; simpl.
  - exact H.
  - apply IH.
    exact (grows_keeps_schema B env db _ route
             (serve_grows B M J secret route db env req) H).
Qed.

(** ** Later requests *)

(** A request that records no mood for the user [uid]: it is for another
    route, or [authenticateToken] does not pass it on with that id. *)
Definition leaves_history (J : Jwt) (secret : JsString) (uid : ObjectId)
  (r : Route * Env * Request) : Prop :=
  let '(route, env, req) := r in
  route = POST_mood_select ->
  forall user,
    outcome (authenticateToken secret env req) = Next user -> id user <> uid.

Lemma serve_keeps_users (B : Bcrypt) (M : Mongoose) (J : Jwt)
  (secret : JsString) (route : Route) (db : Db) (env : Env) (req : Request) :
  exists us, users (fst (serve secret route db env req)) = (users db ++ us)%list.
Proof.
  destruct (serve_grows B M J secret route db env req).
  - exists []. now rewrite app_nil_r.
  - eexists. reflexivity.
  - exists []. now rewrite app_nil_r.
  - exists []. now rewrite app_nil_r.
Qed.

Lemma run_keeps_users (B : Bcrypt) (M : Mongoose) (J : Jwt)
  (secret : JsString) (requests : list (Route * Env * Request)) (db : Db) :
  exists us, users (run secret db requests) = (users db ++ us)%list.
Proof.
  revert db. induction requests as [|[[route env] req] rest IH]; intros db.
  - exists []. simpl. now rewrite app_nil_r.
  - simpl.
    destruct (serve_keeps_users B M J secret route db env req) as [us Hus].
    destruct (IH (fst (serve secret route db env req))) as [us' Hus'].
    exists (us ++ us')%list. now rewrite Hus', Hus, <- app_assoc.
Qed.

Lemma findOne_prefix (db later : Db) (e : string) (u : User.t)
  (us : list User.t) :
  User_findOne db e = Some u ->
  users later = (users db ++ us)%list ->
  User_findOne later e = Some u.
Proof.
  unfold User_findOne. intros H ->.
  induction (users db) as [|w l IH]; simpl in *; [discriminate|].
  destruct (String.eqb (User.email w) e); [exact H|auto].
Qed.

Lemma grows_keeps_moods (B : Bcrypt) (env : Env) (db db' : Db)
  (route : Route) :
  grows B env db route db' -> route <> POST_mood_select ->
  moodselections db' = moodselections db.
Proof.
  intros H Hroute. destruct H; try reflexivity. contradiction.
Qed.

Lemma serve_keeps_history (B : Bcrypt) (M : Mongoose) (J : Jwt)
  (secret : JsString) (uid : ObjectId) (route : Route) (db : Db) (env : Env)
  (req : Request) :
  leaves_history J secret uid (route, env, req) ->
  MoodSelection_history (fst (serve secret route db env req)) uid
  = MoodSelection_history db uid.
Proof.
  intros Hleaves. unfold leaves_history in Hleaves.
  destruct route;
    try (unfold MoodSelection_history;
         now rewrite (grows_keeps_moods B env db _ _
                        (serve_grows B M J secret _ db env req))).
  change (fst (serve secret POST_mood_select db env req))
    with (fst (mood_select secret db env req)).
  destruct (mood_select_effect M J secret db env req)
    as [->|(user & m & Hauth & _ & ->)]; [reflexivity|].
  specialize (Hleaves eq_refl user Hauth).
  unfold MoodSelection_history. simpl. rewrite filter_app. simpl.
  destruct (String.eqb_spec (id user) uid); [contradiction|].
  now rewrite app_nil_r.
Qed.

Lemma run_keeps_history (B : Bcrypt) (M : Mongoose) (J : Jwt)
  (secret : JsString) (uid : ObjectId)
  (requests : list (Route * Env * Request)) (db : Db) :
  Forall (leaves_history J secret uid) requests ->
  MoodSelection_history (run secret db requests) uid
  = MoodSelection_history db uid.
Proof.
  revert db. induction requests as [|[[route env] req] rest IH]; intros db H.
  - reflexivity.
  - apply Forall_cons_iff in H as [H1 H2]. simpl.
    rewrite (IH _ H2).
    exact (serve_keeps_history B M J secret uid route db env req H1).
Qed.

(** X2. A mood recorded for a user at a time later than all stored selections
    of that user is stored with the user's id, the mood and that time and
    answered 200. After any sequence of further requests to the routes of the
    application in which nobody records a mood with that user's id, the
    history route still answers that user with this selection as the first
    entry of the list. *)
Theorem mood_recorded_first (B : Bcrypt) (M : Mongoose) (J : Jwt)
  (secret : JsString) (db : Db)
  (env : Env) (req : Request) (user : Claims) (m : string) :
  outcome (authenticateToken secret env req) = Next user ->
  text (b_mood (body req)) = Some m ->
  (forall x, In x (moodselections db) ->
     MoodSelection.userId x = id user -> MoodSelection.timestamp x < now env) ->
  let recorded := MoodSelection.mk (oid env) (id user) m (now env) in
  let db' :=
    mkDb (users db) (contacts db) (moodselections db ++ [recorded]) in
  mood_select secret db env req
  = (db', ok (Message "Mood tracked successfully"))
  /\ exists rest,
       forall requests env2 req2 user2,
         Forall (leaves_history J secret (id user)) requests ->
         outcome (authenticateToken secret env2 req2) = Next user2 ->
         id user2 = id user ->
         let later := run secret db' requests in
         mood_history secret later env2 req2
         = (later, ok (History (recorded :: rest))).
Proof.
  intros Hauth Hm Hlate recorded db'.
  split; [exact (mood_select_given M J secret db env req user m Hauth Hm)|].
  set (mine := filter (fun x => String.eqb (MoodSelection.userId x) (id user))
                 (moodselections db)).
  destruct (sorted_head_latest mine recorded) as [rest Hrest].
  { intros y Hy. apply filter_In in Hy as [Hy1 Hy2].
    apply String.eqb_eq in Hy2. simpl. auto. }
  exists (firstn 49 rest). intros requests env2 req2 user2 Hquiet Hauth2 Hid.
  cbv zeta. unfold mood_history, protected. rewrite Hauth2. cbv zeta.
  rewrite Hid.
  rewrite (run_keeps_history B M J secret (id user) requests db' Hquiet).
  unfold MoodSelection_history, db'. simpl moodselections.
  rewrite filter_app. simpl. rewrite String.eqb_refl.
  fold mine. now rewrite Hrest.
Qed.

(** X5. The history of a user has as many entries as the user has stored
    selections, up to the limit of 50; when the user has at most 50, the
    history holds all of them. *)
Theorem mood_history_size (db : Db) (userId : ObjectId) :
  let mine :=
    filter (fun m => String.eqb (MoodSelection.userId m) userId)
      (moodselections db) in
  length (MoodSelection_history db userId) = Nat.min 50 (length mine)
  /\ ((length mine <= 50)%nat ->
      Permutation mine (MoodSelection_history db userId)).
Proof.
  intros mine. unfold MoodSelection_history. fold mine.
  pose proof (MoodSort.Permuted_sort mine) as Hperm.
  split.
  - rewrite length_firstn. now rewrite <- (Permutation_length Hperm).
  - intros Hle. rewrite firstn_all2; [exact Hperm|].
    now rewrite <- (Permutation_length Hperm).
Qed.

(** X7. Once a signup has stored a user, then after any sequence of further
    requests to the routes of the application, a signup that gives the same
    email, with any name and password the presence check lets through, is
    refused with status 400 and the duplicate-email message, and stores
    nothing. *)
Theorem signup_twice_refused (B : Bcrypt) (M : Mongoose) (J : Jwt)
  (secret : JsString) (db : Db) (env env2 : Env) (req req2 : Request)
  (n e p : string) (between : list (Route * Env * Request)) :
  text (b_name (body req)) = Some n ->
  text (b_email (body req)) = Some e ->
  text (b_password (body req)) = Some p ->
  User_findOne db e = None ->
  truthy (b_name (body req2)) = true ->
  text (b_email (body req2)) = Some e ->
  truthy (b_password (body req2)) = true ->
  let db' := fst (signup secret db env req) in
  let later := run secret db' between in
  status (snd (signup secret db env req)) = 201
  /\ signup secret later env2 req2
     = (later, failure 400 "Email already registered").
Proof.
  intros Hn He Hp Hf Tn2 He2 Tp2 db' later. unfold later, db'.
  rewrite (signup_given B M J secret db env req n e p Hn He Hp), Hf.
  split; [reflexivity|]. unfold created. cbn [fst].
  set (stored := User.mk (oid env) n e (bcrypt_hash p 10 (salt env)) (now env)).
  set (first := mkDb (users db ++ [stored]) (contacts db) (moodselections db)).
  destruct (run_keeps_users B M J secret between first) as [us Hus].
  pose proof (findOne_prefix first (run secret first between) e stored us
                (findOne_appended db stored Hf) Hus) as Hfound.
  apply text_Some in He2 as (He2 & _ & Te2).
  rewrite (signup_present B M J secret _ env2 req2 Tn2 Te2 Tp2), He2.
  simpl. now rewrite Hfound.
Qed.

(** ** The client's forms against the server *)

Section Wire.

(** The string the server reads for a string the client posted. The only
    fact used about it is that a string with a code unit in it does not
    arrive empty. *)
Variable wire : JsText -> string.
Hypothesis wire_nonempty : forall s, wire s = "" -> s = [].

Lemma text_wire (s : JsText) :
  empty s = false -> text (JString (wire s)) = Some (wire s).
Proof.
  intros H. apply text_intro. intros E. apply wire_nonempty in E.
  now subst s.
Qed.

End Wire.

(** X12. Whatever the sign-in form posts has an email that matches [emailRegex]
    and a password of at least 6 code units, both trimmed of the white space
    and line terminators of JavaScript, and is never refused by the server
    for a missing field: in signup mode the signup route answers with the
    duplicate-email refusal or stores the trimmed name, email and
    password's hash; in login mode the login route goes on to the lookup
    and the password comparison. *)
Theorem handleAuth_posts_pass_validation (B : Bcrypt) (M : Mongoose) (J : Jwt)
  (secret : JsString) (wire : JsText -> string)
  (authEmail authPassword authName : JsText)
  (isSignup : bool) (endpoint : string) (posted : Posted) :
  (forall s, wire s = "" -> s = []) ->
  handleAuth authEmail authPassword authName isSignup = Post endpoint posted ->
  test emailRegex (trim authEmail) = true
  /\ (6 <= length (trim authPassword))%nat
  /\ (isSignup = true ->
      endpoint = "/auth/signup"
      /\ forall db env authToken,
           signup secret db env (apiRequest authToken (parsed wire posted))
           = match User_findOne db (wire (trim authEmail)) with
             | Some _ => (db, failure 400 "Email already registered")
             | None =>
                 created B J secret db env (wire (trim authName))
                   (wire (trim authEmail)) (wire (trim authPassword))
             end)
  /\ (isSignup = false ->
      endpoint = "/auth/login"
      /\ forall db env authToken,
           login secret db env (apiRequest authToken (parsed wire posted))
           = match User_findOne db (wire (trim authEmail)) with
             | None => (db, failure 400 "Invalid email or password")
             | Some u =>
                 if bcrypt_compare (wire (trim authPassword))
                      (User.password u)
                 then (db,
                       ok (Session "Welcome back! 🎉"
                             (jwt_sign (User._id u) (User.email u)
                                (User.name u) (JWT_SECRET secret) (now env))
                             (user_view u)))
                 else (db, failure 400 "Invalid email or password")
             end).
Proof.
  intros Hwire. unfold handleAuth.
  destruct (empty (trim authEmail)) eqn:He; simpl; [discriminate|].
  destruct (empty (trim authPassword)) eqn:Hp; simpl; [discriminate|].
  destruct isSignup; simpl.
  - destruct (empty (trim authName)) eqn:Hn; simpl; [discriminate|].
    destruct (test emailRegex (trim authEmail)); simpl; [|discriminate].
    destruct (Nat.ltb_spec (length (trim authPassword)) 6);
      [discriminate|].
    intros E. injection E as <- <-.
    split; [reflexivity|]. split; [assumption|].
    split; [|discriminate]. intros _. split; [reflexivity|].
    intros db env authToken.
    apply signup_given; simpl; now apply text_wire.
  - destruct (test emailRegex (trim authEmail)); simpl; [|discriminate].
    destruct (Nat.ltb_spec (length (trim authPassword)) 6);
      [discriminate|].
    intros E. injection E as <- <-.
    split; [reflexivity|]. split; [assumption|].
    split; [discriminate|]. intros _. split; [reflexivity|].
    intros db env authToken.
    apply login_given; simpl; now apply text_wire.
Qed.

(** X13. Whatever the contact form posts goes to [/contact] and is stored by
    the contact route with the name, email and message trimmed of the white
    space and line terminators of JavaScript, and answered 200; the stored
    email matches [emailRegex]. *)
Theorem submitContact_is_stored (M : Mongoose) (wire : JsText -> string)
  (contactName contactEmail contactMessage : JsText) (endpoint : string)
  (posted : Posted) :
  (forall s, wire s = "" -> s = []) ->
  submitContact contactName contactEmail contactMessage
  = Post endpoint posted ->
  endpoint = "/contact"
  /\ test emailRegex (trim contactEmail) = true
  /\ forall db env authToken,
       contact db env (apiRequest authToken (parsed wire posted))
       = (mkDb (users db)
            (contacts db
               ++ [Contact.mk (oid env) (wire (trim contactName))
                     (wire (trim contactEmail)) (wire (trim contactMessage))
                     (now env)])
            (moodselections db),
          ok (Message
                "Thank you for your message! We'll get back to you soon. 📧")).
Proof.
  intros Hwire. unfold submitContact.
  destruct (empty (trim contactName)) eqn:Hn; simpl; [discriminate|].
  destruct (empty (trim contactEmail)) eqn:He; simpl; [discriminate|].
  destruct (empty (trim contactMessage)) eqn:Hm; simpl; [discriminate|].
  destruct (test emailRegex (trim contactEmail)); simpl; [|discriminate].
  intros E. injection E as <- <-. split; [reflexivity|].
  split; [reflexivity|].
  intros db env authToken.
  apply contact_given; simpl; now apply text_wire.
Qed.

(** The forms strip what JavaScript strips: a trimmed value neither starts
    nor ends with a white-space code unit, the no-break space included. *)
Lemma trimStart_head (s : JsText) (c : CodeUnit) (rest : JsText) :
  trimStart s = c :: rest -> is_space c = false.
Proof.
  induction s as [|d s IH]; simpl; [discriminate|].
  destruct (is_space d) eqn:Hd; [exact IH|].
  intros E. injection E as <- _. exact Hd.
Qed.

Lemma trimEnd_head (s : JsText) (c : CodeUnit) :
  trimEnd (c :: s) = [] \/ exists rest, trimEnd (c :: s) = c :: rest.
Proof.
  simpl. destruct (trimEnd s); [destruct (is_space c)|]; eauto.
Qed.

Lemma trimEnd_last (s kept : JsText) (c : CodeUnit) :
  trimEnd s = (kept ++ [c])%list -> is_space c = false.
Proof.
  revert kept. induction s as [|d s IH]; intros kept; simpl.
  - now destruct kept.
  - destruct (trimEnd s) as [|k ks] eqn:Hs.
    + destruct (is_space d) eqn:Hd; [now destruct kept|].
      destruct kept as [|? [|? ?]]; simpl; intros E; try discriminate.
      now injection E as <-.
    + destruct kept as [|k0 kept]; simpl; intros E; [discriminate|].
      injection E as _ E. exact (IH kept E).
Qed.

Lemma trim_ends (s : JsText) :
  (forall c rest, trim s = c :: rest -> is_space c = false)
  /\ (forall kept c, trim s = (kept ++ [c])%list -> is_space c = false).
Proof.
  unfold trim. split.
  - intros c rest H.
    destruct (trimStart s) as [|d t] eqn:Hs; [discriminate|].
    destruct (trimEnd_head t d) as [E|[kept E]]; rewrite E in H;
      [discriminate|].
    injection H as <- _. exact (trimStart_head s d t Hs).
  - intros kept c. apply trimEnd_last.
Qed.

(** X14. A client without a stored token (none, or the empty string) sends no
    Authorization header, and every route behind the middleware answers it
    401 with the missing-token message, leaving the database unchanged. A
    client whose stored token has no space has exactly that token handed
    to [jwt.verify] by the middleware. *)
Theorem client_token_reaches_server (B : Bcrypt) (M : Mongoose) (J : Jwt)
  (secret : JsString) (authToken : JsString) (posted : Body) (env : Env) :
  (falsy authToken = true ->
   forall route db,
     behind_token route = true ->
     serve secret route db env (apiRequest authToken posted)
     = (db, Json (failure 401 "Access token required")))
  /\ (forall token,
        given authToken = Some token -> space_free token = true ->
        authenticateToken secret env (apiRequest authToken posted)
        = mkRun [token]
            match jwt_verify token (JWT_SECRET secret) (now env) with
            | inl err => Respond (failure 403 "Invalid or expired token")
            | inr user => Next user
            end).
Proof.
  split.
  - intros Hfalsy route db Hroute.
    assert (Hg : given authToken = None).
    { destruct authToken as [t|]; simpl in *; [now rewrite Hfalsy|auto]. }
    assert (Hrun : authenticateToken secret env (apiRequest authToken posted)
                   = mkRun [] (Respond (failure 401 "Access token required"))).
    { unfold authenticateToken, apiRequest, apiRequest_authorization.
      now rewrite Hg. }
    destruct route; try discriminate; unfold serve; cbv zeta;
      unfold auth_verify, mood_select, mood_history, admin_contacts,
        admin_analytics, protected; now rewrite Hrun.
  - intros token Hg Hfree.
    unfold authenticateToken, apiRequest, apiRequest_authorization.
    rewrite Hg. simpl authorization.
    pose proof (header_token_second "Bearer" token eq_refl Hfree) as Hh.
    cbn [append] in Hh. rewrite Hh.
    apply given_Some in Hg as [_ Hne]. now rewrite (given_intro _ Hne).
Qed.

(** ** The email pattern *)

(** The strings a regular expression denotes. *)
Inductive matches : Regex -> JsText -> Prop :=
| matches_empty : matches Empty []
| matches_class (p : CodeUnit -> bool) (c : CodeUnit) :
    p c = true -> matches (Class p) [c]
| matches_seq (r1 r2 : Regex) (s1 s2 : JsText) :
    matches r1 s1 -> matches r2 s2 -> matches (Seq r1 r2) (s1 ++ s2)%list
| matches_left (r1 r2 : Regex) (s : JsText) :
    matches r1 s -> matches (Alt r1 r2) s
| matches_right (r1 r2 : Regex) (s : JsText) :
    matches r2 s -> matches (Alt r1 r2) s
| matches_stop (r : Regex) : matches (Star r) []
| matches_more (r : Regex) (s1 s2 : JsText) :
    matches r s1 -> matches (Star r) s2 -> matches (Star r) (s1 ++ s2)%list.

(** A non-empty string without white space, line terminators or [@]. *)
Definition plain (s : JsText) : bool :=
  negb (empty s) && forallb not_space_at s.

Lemma nullable_matches (r : Regex) : nullable r = true <-> matches r [].
Proof.
  split.
  - induction r; simpl; intros H; try discriminate.
    + constructor.
    + apply andb_true_iff in H as [H1 H2].
      change (@nil CodeUnit) with (@nil CodeUnit ++ [])%list.
      constructor; auto.
    + apply orb_true_iff in H as [H|H];
        [apply matches_left|apply matches_right]; auto.
    + constructor.
  - intros H. remember (@nil CodeUnit) as s eqn:Es.
    induction H; simpl; try discriminate; auto.
    + apply app_eq_nil in Es as [E1 E2].
      rewrite IHmatches1, IHmatches2; auto.
    + rewrite IHmatches; auto.
    + rewrite IHmatches; auto. apply orb_true_r.
Qed.

Lemma deriv_sound (c : CodeUnit) (r : Regex) (s : JsText) :
  matches (deriv c r) s -> matches r (c :: s).
Proof.
  revert s. induction r; simpl; intros s H.
  - inversion H.
  - inversion H.
  - destruct (p c) eqn:Hp; inversion H; subst. now constructor.
  - assert (Hseq : forall s, matches (Seq (deriv c r1) r2) s ->
                             matches (Seq r1 r2) (c :: s)).
    { intros x Hx. inversion Hx; subst.
      change (c :: (s1 ++ s2)%list) with ((c :: s1) ++ s2)%list.
      constructor; auto. }
    destruct (nullable r1) eqn:Hn; [|auto].
    inversion H; subst; [auto|].
    change (c :: s) with ([] ++ c :: s)%list.
    constructor; [now apply nullable_matches|auto].
  - inversion H; subst; [apply matches_left|apply matches_right]; auto.
  - inversion H; subst.
    change (c :: (s1 ++ s2)%list) with ((c :: s1) ++ s2)%list.
    constructor; auto.
Qed.

Lemma deriv_complete (c : CodeUnit) (r : Regex) (s : JsText) :
  matches r (c :: s) -> matches (deriv c r) s.
Proof.
  intros H. remember (c :: s) as cs eqn:E. revert c s E.
  induction H; intros c0 s0 E; simpl; try discriminate.
  - injection E as -> <-. rewrite H. constructor.
  - destruct s1 as [|c1 s1']; simpl in E.
    + apply nullable_matches in H. rewrite H.
      apply matches_right. auto.
    + injection E as -> <-.
      assert (Hm : matches (Seq (deriv c0 r1) r2) (s1' ++ s2)%list)
        by (constructor; auto).
      destruct (nullable r1); [now apply matches_left|exact Hm].
  - apply matches_left. auto.
  - apply matches_right. auto.
  - destruct s1 as [|c1 s1']; simpl in E.
    + apply (IHmatches2 c0 s0 E).
    + injection E as -> <-. constructor; auto.
Qed.

(** The derivative matcher decides the denotation. *)
Lemma test_matches (r : Regex) (s : JsText) :
  test r s = true <-> matches r s.
Proof.
  revert r. induction s as [|c s IH]; intros r; simpl.
  - apply nullable_matches.
  - rewrite IH. split; [apply deriv_sound|apply deriv_complete].
Qed.

Lemma matches_class_iff (p : CodeUnit -> bool) (s : JsText) :
  matches (Class p) s <-> exists c, s = [c] /\ p c = true.
Proof.
  split.
  - intros H. inversion H; subst. eauto.
  - intros (c & -> & H). now constructor.
Qed.

Lemma matches_seq_iff (r1 r2 : Regex) (s : JsText) :
  matches (Seq r1 r2) s
  <-> exists s1 s2, s = (s1 ++ s2)%list /\ matches r1 s1 /\ matches r2 s2.
Proof.
  split.
  - intros H. inversion H; subst. eauto.
  - intros (s1 & s2 & -> & H1 & H2). now constructor.
Qed.

Lemma matches_star_class (p : CodeUnit -> bool) (s : JsText) :
  matches (Star (Class p)) s <-> forallb p s = true.
Proof.
  split.
  - intros H. remember (Star (Class p)) as r eqn:E.
    induction H; try discriminate; [reflexivity|].
    injection E as ->. apply matches_class_iff in H as (c & -> & Hc).
    simpl. rewrite Hc. simpl. auto.
  - induction s as [|c s IH]; simpl; intros H.
    + constructor.
    + apply andb_true_iff in H as [Hc Hs].
      change (c :: s) with ([c] ++ s)%list.
      constructor; [now constructor|auto].
Qed.

Lemma matches_plus_class (p : CodeUnit -> bool) (s : JsText) :
  matches (Plus (Class p)) s
  <-> negb (empty s) && forallb p s = true.
Proof.
  unfold Plus. rewrite matches_seq_iff. split.
  - intros (s1 & s2 & -> & H1 & H2).
    apply matches_class_iff in H1 as (c & -> & Hc).
    apply matches_star_class in H2. simpl. now rewrite Hc.
  - destruct s as [|c s]; simpl; [discriminate|]. intros H.
    apply andb_true_iff in H as [Hc Hs].
    exists [c], s. split; [reflexivity|].
    split; [now constructor|now apply matches_star_class].
Qed.

(** X15. The pattern of the two forms accepts exactly the strings made of a
    non-empty part, an [@] (code unit 64), a non-empty part, a dot (code
    unit 46) and a non-empty part, where no part holds an [@] or a code unit
    of the class [\s]: tab, line feed, vertical tab, form feed, carriage
    return, space, no-break space, U+1680, U+2000 to U+200A, U+2028, U+2029,
    U+202F, U+205F, U+3000 or U+FEFF. *)
Theorem emailRegex_shape (s : JsText) :
  test emailRegex s = true
  <-> exists before domain ending,
        s = (before ++ [64%N] ++ domain ++ [46%N] ++ ending)%list
        /\ plain before = true /\ plain domain = true
        /\ plain ending = true.
Proof.
  rewrite test_matches. unfold emailRegex, plain. split.
  - intros H.
    apply matches_seq_iff in H as (a & r1 & -> & Ha & H).
    apply matches_seq_iff in H as (at_ & r2 & -> & Hat & H).
    apply matches_seq_iff in H as (d & r3 & -> & Hd & H).
    apply matches_seq_iff in H as (dot & e & -> & Hdot & He).
    apply matches_class_iff in Hat as (c1 & -> & Hc1).
    apply matches_class_iff in Hdot as (c2 & -> & Hc2).
    apply N.eqb_eq in Hc1, Hc2. subst c1 c2.
    apply matches_plus_class in Ha, Hd, He.
    exists a, d, e. auto.
  - intros (a & d & e & -> & Ha & Hd & He).
    apply matches_plus_class in Ha, Hd, He.
    constructor; [exact Ha|].
    constructor; [now constructor|].
    constructor; [exact Hd|].
    constructor; [now constructor|exact He].
Qed.

(** ** The shuffle *)

Lemma detach_In (x y : Node) (l : list Node) :
  In y (detach x l) <-> In y l /\ y <> x.
Proof.
  unfold detach. rewrite filter_In.
  destruct (Nat.eqb_spec y x); simpl; intuition congruence.
Qed.

Lemma detach_absent (x : Node) (l : list Node) :
  ~ In x l -> detach x l = l.
Proof.
  unfold detach. induction l as [|y l IH]; simpl; intros H; [reflexivity|].
  destruct (Nat.eqb_spec y x) as [E|N]; simpl.
  - exfalso. apply H. auto.
  - f_equal. apply IH. tauto.
Qed.

Lemma detach_perm (x : Node) (l : list Node) :
  NoDup l -> In x l -> Permutation l (x :: detach x l).
Proof.
  induction l as [|y l IH]; simpl; intros Hnd Hin; [tauto|].
  apply NoDup_cons_iff in Hnd as [Hy Hl].
  destruct (Nat.eqb_spec y x) as [E|N]; simpl.
  - subst y. fold (detach x l). now rewrite detach_absent.
  - destruct Hin as [E|Hin]; [congruence|].
    fold (detach x l). rewrite perm_swap. constructor. auto.
Qed.

Lemma attach_perm (node child : Node) (l : list Node) :
  In child l ->
  exists l', attach node child l = Some l' /\ Permutation (node :: l) l'.
Proof.
  induction l as [|x l IH]; simpl; intros Hin; [tauto|].
  destruct (Nat.eqb_spec x child) as [E|N].
  - eexists. split; [reflexivity|apply Permutation_refl].
  - destruct Hin as [E|Hin]; [congruence|].
    destruct (IH Hin) as (l' & -> & Hperm).
    eexists. split; [reflexivity|].
    rewrite perm_swap. now constructor.
Qed.

Lemma insertBefore_perm (children : list Node) (node child : Node) :
  NoDup children -> In node children -> In child children ->
  exists children',
    insertBefore children node child = Some children'
    /\ Permutation children children'.
Proof.
  intros Hnd Hnode Hchild. unfold insertBefore.
  assert (Hex : existsb (Nat.eqb child) children = true).
  { apply existsb_exists. exists child. split; [exact Hchild|].
    apply Nat.eqb_refl. }
  rewrite Hex. simpl.
  destruct (Nat.eqb_spec node child) as [E|N].
  - eexists. split; [reflexivity|apply Permutation_refl].
  - destruct (attach_perm node child (detach node children))
      as (l' & Hl' & Hperm).
    { apply detach_In. split; [exact Hchild|congruence]. }
    exists l'. split; [exact Hl'|].
    rewrite <- Hperm. now apply detach_perm.
Qed.

Lemma shuffle_from_perm (cards : list Node) (random : nat -> nat) (i : nat)
  (children : list Node) :
  (forall k, random k <= k)%nat ->
  (i = 0 \/ i < length cards)%nat ->
  NoDup children -> Permutation cards children ->
  exists children',
    shuffle_from cards random i children = Some children'
    /\ Permutation cards children'.
Proof.
  intros Hrandom. revert children.
  induction i as [|i IH]; intros children Hi Hnd Hperm.
  - eexists. split; [reflexivity|exact Hperm].
  - destruct Hi as [Hi|Hi]; [discriminate|]. cbn [shuffle_from].
    destruct (nth_error cards (random (S i))) as [card_j|] eqn:Hj.
    2:{ apply nth_error_None in Hj. specialize (Hrandom (S i)). lia. }
    destruct (nth_error cards (S i)) as [card_i|] eqn:Hci.
    2:{ apply nth_error_None in Hci. lia. }
    apply nth_error_In in Hj, Hci.
    destruct (insertBefore_perm children card_j card_i Hnd)
      as (children' & -> & Hperm').
    + exact (Permutation_in _ Hperm Hj).
    + exact (Permutation_in _ Hperm Hci).
    + apply IH.
      * right. lia.
      * exact (Permutation_NoDup Hperm' Hnd).
      * now rewrite Hperm.
Qed.

Lemma shuffleFoods_shuffles (random : nat -> nat) (children : list Node) :
  (forall i, random i <= i)%nat ->
  NoDup children ->
  exists children',
    shuffleFoods random children = Some children'
    /\ Permutation children children'.
Proof.
  intros Hrandom Hnd. unfold shuffleFoods. cbv zeta.
  apply shuffle_from_perm; auto.
  destruct children; simpl; [auto|right; lia].
Qed.

(** X16. The shuffle never loses, repeats or invents a card: for a grid whose
    children are distinct nodes, and random indices within their range, no
    call throws and the new child list is a permutation of the old one. *)
Theorem shuffleFoods_permutes (random : nat -> nat) (children : list Node) :
  (forall i, random i <= i)%nat ->
  NoDup children ->
  exists children',
    shuffleFoods random children = Some children'
    /\ Permutation children children'
    /\ NoDup children'.
Proof.
  intros Hrandom Hnd.
  destruct (shuffleFoods_shuffles random children Hrandom Hnd)
    as (children' & Hrun & Hperm).
  exists children'. split; [exact Hrun|]. split; [exact Hperm|].
  exact (Permutation_NoDup Hperm Hnd).
Qed.

Lemma attach_snoc (node child z : Node) (l l' : list Node) :
  attach node child (l ++ [z]) = Some l' -> exists front, l' = (front ++ [z])%list.
Proof.
  revert l'. induction l as [|x l IH]; simpl; intros l' H.
  - destruct (Nat.eqb z child); [|discriminate].
    injection H as <-. now exists [node].
  - destruct (Nat.eqb x child).
    + injection H as <-. now exists (node :: x :: l).
    + destruct (attach node child (l ++ [z])) as [rest|]; [|discriminate].
      injection H as <-. destruct (IH rest eq_refl) as [front ->].
      now exists (x :: front).
Qed.

Lemma insertBefore_snoc (l : list Node) (node child z : Node)
  (l' : list Node) :
  insertBefore (l ++ [z]) node child = Some l' ->
  (node = z -> child = z) ->
  exists front, l' = (front ++ [z])%list.
Proof.
  unfold insertBefore. intros H Hlast.
  destruct (existsb (Nat.eqb child) (l ++ [z])); [|discriminate].
  simpl in H. destruct (Nat.eqb_spec node child) as [E|N].
  - injection H as <-. now exists l.
  - assert (Hz : z <> node).
    { intros E. apply N. subst z. symmetry. now apply Hlast. }
    unfold detach in H. rewrite filter_app in H. simpl in H.
    destruct (Nat.eqb_spec z node); [contradiction|]. simpl in H.
    exact (attach_snoc _ _ _ _ _ H).
Qed.

Lemma nth_error_snoc_last {A} (front : list A) (z : A) (j : nat) :
  ~ In z front -> nth_error (front ++ [z]) j = Some z -> j = length front.
Proof.
  intros Hz H. destruct (Nat.lt_ge_cases j (length front)) as [Hlt|Hge].
  - rewrite nth_error_app1 in H by exact Hlt.
    apply nth_error_In in H. contradiction.
  - assert (Hj : (j < length (front ++ [z]))%nat).
    { apply nth_error_Some. congruence. }
    rewrite length_app in Hj. simpl in Hj. lia.
Qed.

Lemma shuffle_from_snoc (front : list Node) (z : Node) (random : nat -> nat)
  (i : nat) (l children' : list Node) :
  (forall k, random k <= k)%nat ->
  ~ In z front -> (i <= length front)%nat ->
  shuffle_from (front ++ [z]) random i (l ++ [z]) = Some children' ->
  exists front', children' = (front' ++ [z])%list.
Proof.
  intros Hrandom Hz. revert l.
  induction i as [|i IH]; intros l Hi H.
  - injection H as <-. now exists l.
  - cbn [shuffle_from] in H.
    destruct (nth_error (front ++ [z]) (random (S i))) as [card_j|] eqn:Hj;
      [|discriminate].
    destruct (nth_error (front ++ [z]) (S i)) as [card_i|] eqn:Hci;
      [|discriminate].
    destruct (insertBefore (l ++ [z]) card_j card_i) as [next|] eqn:Hins;
      [|discriminate].
    destruct (insertBefore_snoc l card_j card_i z next Hins) as [mid ->].
    + intros ->. apply (nth_error_snoc_last _ _ _ Hz) in Hj.
      specialize (Hrandom (S i)).
      assert (Hi' : S i = length front) by lia.
      rewrite Hi', nth_error_app2, Nat.sub_diag in Hci by lia.
      simpl in Hci. congruence.
    + apply (IH mid); [lia|exact H].
Qed.

(** X17. The shuffle never moves the last card: under the same conditions, the
    last child of the grid is the last child afterwards, and the cards
    before it are permuted among themselves. *)
Theorem shuffleFoods_keeps_last (random : nat -> nat) (front : list Node)
  (z : Node) :
  (forall i, random i <= i)%nat ->
  NoDup (front ++ [z]) ->
  exists front',
    shuffleFoods random (front ++ [z]) = Some (front' ++ [z])%list
    /\ Permutation front front'.
Proof.
  intros Hrandom Hnd.
  destruct (shuffleFoods_shuffles random (front ++ [z]) Hrandom Hnd)
    as (children' & Hrun & Hperm).
  assert (Hz : ~ In z front).
  { apply NoDup_remove_2 in Hnd. now rewrite app_nil_r in Hnd. }
  unfold shuffleFoods in *. cbv zeta in *.
  destruct (shuffle_from_snoc front z random (length (front ++ [z]) - 1)
              front children' Hrandom Hz)
    as [front' ->]; [|exact Hrun|].
  - rewrite length_app. simpl. lia.
  - exists front'. split; [exact Hrun|].
    exact (Permutation_app_inv_r _ _ _ Hperm).
Qed.

(** ** The further statements at work on sample data *)

Lemma analytics_mood_distribution_witness :
  exists a,
    @admin_analytics reference_jwt None db_log env0 (as_ann no_body)
    = (db_log, AnalyticsJson a)
    /\ totalUsers a = 1 /\ totalContacts a = 3 /\ totalMoodSelections a = 3
    /\ total_count (moodStats a) = 3.
Proof.
  destruct (analytics_mood_distribution reference_jwt None db_log env0
              (as_ann no_body) ann_claims eq_refl)
    as (a & Ha & Hu & Hc & Hm & _ & _ & _ & Ht).
  exists a. rewrite Ht, Hm. auto.
Defined.

Lemma mood_select_isolated_witness :
  MoodSelection_history
    (fst (@mood_select reference_mongoose reference_jwt None db_log env0
            ann_happy)) "u9"
  = MoodSelection_history db_log "u9".
Proof.
  apply (mood_select_isolated reference_mongoose reference_jwt None db_log
           env0 ann_happy ann_claims "u9").
  - reflexivity.
  - discriminate.
Defined.

Lemma mood_recorded_first_witness :
  exists rest,
    forall requests env2 req2 user2,
      Forall (leaves_history reference_jwt None "u1") requests ->
      outcome (@authenticateToken reference_jwt None env2 req2) = Next user2 ->
      id user2 = "u1" ->
      let later :=
        @run reference_bcrypt reference_mongoose reference_jwt None
          (mkDb (users db_log) (contacts db_log)
             (moodselections db_log
                ++ [MoodSelection.mk "u2" "u1" "happy" 5000]))
          requests in
      @mood_history reference_jwt None later env2 req2
      = (later,
         ok (History (MoodSelection.mk "u2" "u1" "happy" 5000 :: rest))).
Proof.
  apply (mood_recorded_first reference_bcrypt reference_mongoose reference_jwt
           None db_log env0 ann_happy ann_claims "happy").
  - reflexivity.
  - reflexivity.
  - intros x [<-|[<-|[<-|[]]]] _; simpl; lia.
Defined.

Lemma history_most_recent_witness :
  MoodSelection.timestamp (MoodSelection.mk "m" "u1" "happy" 50)
  >= MoodSelection.timestamp (MoodSelection.mk "m" "u1" "happy" 0).
Proof.
  apply (history_most_recent db_busy "u1").
  - vm_compute. left. reflexivity.
  - vm_compute. left. reflexivity.
Defined.

Lemma signup_then_login_witness :
  @login reference_bcrypt reference_mongoose reference_jwt None
    (fst (@signup reference_bcrypt reference_mongoose reference_jwt None
            db_ann env0
            (credentials (JString "Bob") (JString "bob@x.com")
               (JString "hunter2"))))
    (mkEnv 9000 "u3" "t")
    (credentials JUndefined (JString "bob@x.com") (JString "hunter2"))
  = (fst (@signup reference_bcrypt reference_mongoose reference_jwt None
            db_ann env0
            (credentials (JString "Bob") (JString "bob@x.com")
               (JString "hunter2"))),
     ok (Session "Welcome back! 🎉"
           (@jwt_sign reference_jwt "u2" "bob@x.com" "Bob" (JWT_SECRET None)
              9000)
           (mkUserView "u2" "Bob" "bob@x.com"))).
Proof.
  apply (proj1
           (signup_then_login reference_bcrypt reference_mongoose
              reference_jwt None db_ann env0 (mkEnv 9000 "u3" "t")
              (credentials (JString "Bob") (JString "bob@x.com")
                 (JString "hunter2"))
              (credentials JUndefined (JString "bob@x.com")
                 (JString "hunter2"))
              "Bob" "bob@x.com" "hunter2" "hunter2"
              eq_refl eq_refl eq_refl eq_refl eq_refl eq_refl)).
  reflexivity.
Defined.

Lemma session_token_verifies_witness :
  @auth_verify reference_jwt None db_log (mkEnv 9000 "x" "t")
    (as_ann no_body)
  = (db_log, ok (Verified ann_claims)).
Proof.
  apply (session_token_verifies reference_bcrypt reference_mongoose
           reference_jwt None
           (mkDb [] [] []) db_log (mkEnv 5000 "u1" "s") (mkEnv 9000 "x" "t")
           (credentials (JString "Ann") (JString "ann@x.com")
              (JString "secret1"))
           (as_ann no_body) "Account created successfully! 🎉" ann_token
           (mkUserView "u1" "Ann" "ann@x.com")).
  - left. reflexivity.
  - reflexivity.
  - simpl. lia.
Defined.

Lemma protected_routes_gate_witness :
  @serve reference_bcrypt reference_mongoose reference_jwt None
    GET_admin_analytics db_log env0
    (mkRequest (Some "Bearer abc") no_body)
  = (db_log, Json (failure 403 "Invalid or expired token")).
Proof.
  apply (protected_routes_gate reference_bcrypt reference_mongoose
           reference_jwt None GET_admin_analytics db_log env0
           (mkRequest (Some "Bearer abc") no_body)
           (failure 403 "Invalid or expired token"));
    reflexivity.
Defined.

Lemma run_keeps_schema_witness :
  schema_holds reference_bcrypt
    (@run reference_bcrypt reference_mongoose reference_jwt None
       (mkDb [] [] [])
       [(POST_auth_signup, mkEnv 5000 "u1" "s",
         credentials (JString "Ann") (JString "ann@x.com")
           (JString "secret1"));
        (POST_auth_signup, mkEnv 6000 "u2" "t",
         credentials (JString "Ann B") (JString "ann@x.com")
           (JString "hunter2"));
        (POST_auth_signup, mkEnv 6500 "u3" "t",
         credentials (JObject []) (JString "cy@x.com") (JNumber 1234567));
        (POST_mood_select, mkEnv 7000 "m1" "t", ann_happy);
        (POST_contact, mkEnv 8000 "c1" "t",
         submission (JString "Bob") (JString "not-an-email")
           (JString "hello"))]).
Proof.
  apply (run_keeps_schema reference_bcrypt reference_mongoose reference_jwt
           None).
  unfold schema_holds. simpl. repeat split; constructor.
Defined.

Lemma handleAuth_posts_pass_validation_witness :
  test emailRegex (trim (units " ann@x.com" ++ [160%N])%list) = true
  /\ (6 <= length (trim (units "secret1")))%nat.
Proof.
  destruct (handleAuth_posts_pass_validation reference_bcrypt
              reference_mongoose reference_jwt None Reference.wire
              (units " ann@x.com" ++ [160%N])%list (units "secret1")
              (units "Ann") true "/auth/signup"
              (mkPosted (Some (units "Ann")) (Some (units "ann@x.com"))
                 (Some (units "secret1")) None)
              ReferenceLaws.wire_empty eq_refl) as (Hemail & Hlen & _).
  split; assumption.
Defined.

Lemma submitContact_is_stored_witness :
  test emailRegex (trim (units "bob@x.com" ++ [160%N])%list) = true.
Proof.
  apply (submitContact_is_stored reference_mongoose Reference.wire
           (units " Bob") (units "bob@x.com" ++ [160%N])%list (units "hello")
           "/contact"
           (mkPosted (Some (units "Bob")) (Some (units "bob@x.com")) None
              (Some (units "hello")))
           ReferenceLaws.wire_empty eq_refl).
Defined.

(** The forms count and trim as JavaScript does: [héllo] has five code
    units and is refused as a password, a trailing no-break space is
    stripped, and an email with a no-break space in it is refused. *)
Example forms_on_other_characters :
  handleAuth (units "ann@x.com") [104; 233; 108; 108; 111]%N [] false
  = Toast "Password must be at least 6 characters! 🔒"
  /\ trim (units "bob@x.com" ++ [160%N])%list = units "bob@x.com"
  /\ submitContact (units "Bob") (units "bob" ++ [160%N] ++ units "@x.com")%list
       (units "hello")
     = Toast "Please enter a valid email! 📧".
Proof. repeat split. Qed.

Lemma shuffleFoods_permutes_witness :
  exists children',
    shuffleFoods first_at_two [1; 2; 3; 4]%nat = Some children'
    /\ Permutation [1; 2; 3; 4]%nat children'
    /\ NoDup children'.
Proof.
  apply (shuffleFoods_permutes first_at_two [1; 2; 3; 4]%nat).
  - intros i. unfold first_at_two. destruct (Nat.eqb i 2); lia.
  - repeat constructor; simpl; lia.
Defined.

Lemma shuffleFoods_keeps_last_witness :
  exists front',
    shuffleFoods first_at_two ([1; 2; 3]%nat ++ [4]%nat)%list
    = Some (front' ++ [4]%nat)%list
    /\ Permutation [1; 2; 3]%nat front'.
Proof.
  apply (shuffleFoods_keeps_last first_at_two [1; 2; 3]%nat 4%nat).
  - intros i. unfold first_at_two. destruct (Nat.eqb i 2); lia.
  - repeat constructor; simpl; lia.
Defined.

Lemma mood_history_size_witness :
  length (MoodSelection_history db_busy "u1") = 50%nat
  /\ length (MoodSelection_history db_log "u1") = 2%nat.
Proof.
  split.
  - exact (proj1 (mood_history_size db_busy "u1")).
  - exact (proj1 (mood_history_size db_log "u1")).
Defined.

Lemma signup_twice_refused_witness :
  let later :=
    @run reference_bcrypt reference_mongoose reference_jwt None
      (fst (@signup reference_bcrypt reference_mongoose reference_jwt None
              db_ann env0
              (credentials (JString "Bob") (JString "bob@x.com")
                 (JString "hunter2"))))
      [(POST_mood_select, mkEnv 7000 "m1" "t", ann_happy);
       (POST_auth_signup, mkEnv 8000 "u3" "t",
        credentials (JString "Cy") (JString "cy@x.com") (JString "pw"))] in
  @signup reference_bcrypt reference_mongoose reference_jwt None later
    (mkEnv 9000 "u4" "t")
    (credentials (JObject []) (JString "bob@x.com") (JNumber 1234567))
  = (later, failure 400 "Email already registered").
Proof.
  apply (signup_twice_refused reference_bcrypt reference_mongoose
           reference_jwt None db_ann env0 (mkEnv 9000 "u4" "t")
           (credentials (JString "Bob") (JString "bob@x.com")
              (JString "hunter2"))
           (credentials (JObject []) (JString "bob@x.com") (JNumber 1234567))
           "Bob" "bob@x.com" "hunter2"
           [(POST_mood_select, mkEnv 7000 "m1" "t", ann_happy);
            (POST_auth_signup, mkEnv 8000 "u3" "t",
             credentials (JString "Cy") (JString "cy@x.com")
               (JString "pw"))]);
    reflexivity.
Defined.

Lemma routes_append_only_witness :
  exists us cs ms,
    users (fst (@serve reference_bcrypt reference_mongoose reference_jwt None
                  POST_contact db_ann env0
                  (submission (JString "Bob") (JString "b@x.com")
                     (JString "hi"))))
    = (users db_ann ++ us)%list
    /\ contacts
         (fst (@serve reference_bcrypt reference_mongoose reference_jwt None
                 POST_contact db_ann env0
                 (submission (JString "Bob") (JString "b@x.com")
                    (JString "hi"))))
       = (contacts db_ann ++ cs)%list
    /\ moodselections
         (fst (@serve reference_bcrypt reference_mongoose reference_jwt None
                 POST_contact db_ann env0
                 (submission (JString "Bob") (JString "b@x.com")
                    (JString "hi"))))
       = (moodselections db_ann ++ ms)%list
    /\ (length us + length cs + length ms <= 1)%nat.
Proof.
  destruct (routes_append_only reference_bcrypt reference_mongoose
              reference_jwt None POST_contact db_ann env0
              (submission (JString "Bob") (JString "b@x.com") (JString "hi")))
    as (us & cs & ms & Hu & Hc & Hm & Hlen & _).
  exists us, cs, ms. auto.
Defined.

Lemma client_token_reaches_server_witness :
  @serve reference_bcrypt reference_mongoose reference_jwt None
    GET_mood_history db_log env0 (apiRequest (Some "") no_body)
  = (db_log, Json (failure 401 "Access token required")).
Proof.
  apply (proj1
           (client_token_reaches_server reference_bcrypt reference_mongoose
              reference_jwt None (Some "") no_body env0));
    reflexivity.
Defined.

Lemma emailRegex_shape_witness :
  test emailRegex (units "ann.b@mail.x.com") = true.
Proof.
  apply (proj2 (emailRegex_shape (units "ann.b@mail.x.com"))).
  exists (units "ann.b"), (units "mail"), (units "x.com"). repeat split.
Defined.
